(** * TQDB alert monitor: a shallow embedding of [tools/TQAlert.py] and of the
    configuration escaping of [tools/for_web/cgi-bin/eConf.py].

    Python integers are [Z]; [//] and [%] with a positive divisor are
    [Z.div] and [Z.modulo] (both round towards minus infinity).  Python
    strings are [string]s whose characters stand for code points below 256.
    Dictionaries keyed by symbol are [gmap string _] where only lookup and
    update matter, and association lists where iteration order is visible.
    Functions that can raise return a [result]. *)

From Stdlib Require Import ZArith String Ascii List Bool Lia.
From stdpp Require Import base option list gmap strings.

Local Open Scope string_scope.
Local Open Scope Z_scope.

(** ** Exceptions *)

Inductive exn : Type :=
| FileNotFoundError
| IsADirectoryError
| PermissionError
| UnicodeDecodeError
| ValueError
| IndexError
| ZeroDivisionError.

Inductive result (A : Type) : Type :=
| Ok (a : A)
| Raise (e : exn).
Arguments Ok {A} a.
Arguments Raise {A} e.

Definition bind {A B : Type} (m : result A) (k : A → result B) : result B :=
  match m with
  | Ok a => k a
  | Raise e => Raise e
  end.

Notation "'let*' x ':=' m 'in' k" := (bind m (fun x => k))
  (at level 10, x pattern, m at level 100, k at level 200).

(** [try: m except handles: h] *)
Definition try_except {A : Type} (m : result A) (handles : exn → bool) (h : result A) : result A :=
  match m with
  | Ok a => Ok a
  | Raise e => if handles e then h else Raise e
  end.

(** ** The Python primitives the two scripts use *)

Module Py.

(** *** [str(n)] and the format spec [02d] *)

Definition digit_char (d : Z) : ascii := ascii_of_nat (48 + Z.to_nat d).

(** Decimal digits of a non-negative [n], most significant first, pushed in
    front of [acc]. *)
Fixpoint digits_aux (fuel : nat) (n : Z) (acc : string) : string :=
  match fuel with
  | O => acc
  | S f =>
      let acc' := String (digit_char (n mod 10)) acc in
      if n <? 10 then acc' else digits_aux f (n / 10) acc'
  end.

Definition str_nat (n : Z) : string :=
  digits_aux (S (Z.to_nat (Z.log2 n))) n "".

(** [str(n)] for an [int]. *)
Definition str (n : Z) : string :=
  if n <? 0 then String "-" (str_nat (- n)) else str_nat n.

Fixpoint zeros (k : nat) : string :=
  match k with
  | O => ""
  | S k' => String "0" (zeros k')
  end.

(** [s.zfill]-like padding on the left, up to [width] characters. *)
Definition pad0 (width : nat) (s : string) : string :=
  zeros (width - String.length s) +:+ s.

(** [f"{n:02d}"]: minimum width 2, zero padding placed after the sign. *)
Definition format_02d (n : Z) : string :=
  if n <? 0 then String "-" (pad0 1 (str_nat (- n))) else pad0 2 (str_nat n).

(** *** [str.strip()] *)

(** [str.isspace] on one character (code points below 256). *)
Definition is_space (c : ascii) : bool :=
  let n := nat_of_ascii c in
  ((9 <=? n) && (n <=? 13) || (28 <=? n) && (n <=? 32) || (n =? 133) || (n =? 160))%nat.

(** The white space [int] accepts around a literal: the C-locale blanks and
    the spaces above 127; the four separators 28..31 are not among them. *)
Definition is_int_space (c : ascii) : bool :=
  let n := nat_of_ascii c in
  ((9 <=? n) && (n <=? 13) || (n =? 32) || (n =? 133) || (n =? 160))%nat.

Fixpoint lstrip_with (space : ascii -> bool) (s : string) : string :=
  match s with
  | "" => ""
  | String c s' => if space c then lstrip_with space s' else s
  end.

Fixpoint rstrip_with (space : ascii -> bool) (s : string) : string :=
  match s with
  | "" => ""
  | String c s' =>
      match rstrip_with space s' with
      | "" => if space c then "" else String c ""
      | r => String c r
      end
  end.

Definition strip_with (space : ascii -> bool) (s : string) : string :=
  rstrip_with space (lstrip_with space s).

Definition strip (s : string) : string := strip_with is_space s.

(** *** [int(s)] for a string *)

Definition digit_val (c : ascii) : option Z :=
  let n := Z.of_nat (nat_of_ascii c) in
  if (48 <=? n) && (n <=? 57) then Some (n - 48) else None.

Inductive scan : Type := AtStart | AfterDigit | AfterUnderscore.

(** Digits, with single underscores allowed between two digits. *)
Fixpoint int_digits (acc : Z) (st : scan) (s : string) : option Z :=
  match s with
  | "" => match st with AfterDigit => Some acc | _ => None end
  | String c s' =>
      match digit_val c with
      | Some d => int_digits (10 * acc + d) AfterDigit s'
      | None =>
          if Ascii.eqb c "_" then
            match st with
            | AfterDigit => int_digits acc AfterUnderscore s'
            | _ => None
            end
          else None
      end
  end.

Definition int_signed (s : string) : option Z :=
  match s with
  | String "-" s' => Z.opp <$> int_digits 0 AtStart s'
  | String "+" s' => int_digits 0 AtStart s'
  | _ => int_digits 0 AtStart s
  end.

(** [int(s)]: surrounding white space is ignored; anything that is not an
    optionally signed decimal literal raises [ValueError].  The interpreter
    also raises [ValueError] for a literal of more than 4300 digits
    ([Limits.max_str_digits] below); that limit is not modelled, so this
    function is the code's [int] on strings of at most 4300 characters, and
    the statements about values read from a string stay within that size. *)
Definition int (s : string) : result Z :=
  match int_signed (strip_with is_int_space s) with
  | Some n => Ok n
  | None => Raise ValueError
  end.

(** *** [str.replace(old, new)] and [str.startswith] *)

Fixpoint startswith (s p : string) {struct p} : bool :=
  match p, s with
  | "", _ => true
  | String a p', String b s' => Ascii.eqb a b && startswith s' p'
  | String _ _, "" => false
  end.

(** Left-to-right, non-overlapping replacement.  [skip] counts the
    characters of the current match that are still to be dropped. *)
Fixpoint replace_from (old new : string) (skip : nat) (s : string) : string :=
  match s with
  | "" => ""
  | String c s' =>
      match skip with
      | S k => replace_from old new k s'
      | O =>
          if startswith s old
          then new +:+ replace_from old new (String.length old - 1) s'
          else String c (replace_from old new O s')
      end
  end.

(** With an empty [old] Python inserts [new] before every character and at
    the end. *)
Fixpoint intersperse (new s : string) : string :=
  match s with
  | "" => new
  | String c s' => new +:+ String c (intersperse new s')
  end.

Definition replace (s old new : string) : string :=
  match old with
  | "" => intersperse new s
  | _ => replace_from old new O s
  end.

(** *** [f.readline()] on a text file opened with universal newlines *)
Fixpoint readline (contents : string) : string :=
  match contents with
  | "" => ""
  | String c rest =>
      if Ascii.eqb c "010" then String "010" ""
      else if Ascii.eqb c "013" then String "010" ""
      else String c (readline rest)
  end.

End Py.

(** ** [tools/TQAlert.py] *)

Module TQAlert.

Definition TEMP_DIR : string := "/tmp/TQAlert".
Definition LASTQ_DIR : string := "/tmp/lastTQ".
Definition MIN_ALERT_INTERVAL : Z := 30.

(** *** Time rules *)

(** The dictionary [_process_time_rules] builds for one rule. *)
Record rule_dict : Type := {
  WeekVal : Z;
  Beg : Z;
  End' : Z;
  TickSec : Z;
  QuoteSec : Z;
  BegOffset : Z
}.

(** [rule_params[i]] *)
Definition item (rule_params : list Z) (i : nat) : result Z :=
  match rule_params !! i with
  | Some x => Ok x
  | None => Raise IndexError
  end.

(** The minimum alert interval of a rule, as the two guarded assignments
    and the final reset of [_process_time_rules] compute it. *)
Definition min_interval (tick_sec quote_sec : Z) : Z :=
  let m := 86400 in
  let m := if (tick_sec >? 0) && (tick_sec <? m) then tick_sec else m in
  let m := if (quote_sec >? 0) && (quote_sec <? m) then quote_sec else m in
  if m =? 86400 then 0 else m.

Definition total_seconds (interval begin_time : Z) : Z :=
  interval
  + (begin_time / 10000) * 3600
  + ((begin_time / 100) mod 100) * 60
  + begin_time mod 100.

(** [int(f"{hours:02d}{minutes:02d}{seconds:02d}")] *)
Definition to_hhmmss (total : Z) : result Z :=
  let hours := total / 3600 in
  let minutes := (total / 60) mod 60 in
  let seconds := total mod 60 in
  Py.int (Py.format_02d hours +:+ Py.format_02d minutes +:+ Py.format_02d seconds).

(** The body of the inner loop of [_process_time_rules]. *)
Definition process_rule_params (rule_params : list Z) : result rule_dict :=
  let* week_val := item rule_params 0 in
  let* beg := item rule_params 1 in
  let* end_ := item rule_params 2 in
  let* tick_sec := item rule_params 3 in
  let* quote_sec := item rule_params 4 in
  let* beg_offset := to_hhmmss (total_seconds (min_interval tick_sec quote_sec) beg) in
  Ok {| WeekVal := week_val; Beg := beg; End' := end_;
        TickSec := tick_sec; QuoteSec := quote_sec; BegOffset := beg_offset |}.

Fixpoint process_rules (rules : list (list Z)) : result (list rule_dict) :=
  match rules with
  | [] => Ok []
  | rule_params :: rest =>
      let* rule := process_rule_params rule_params in
      let* rest' := process_rules rest in
      Ok (rule :: rest')
  end.

(** [_process_time_rules]: the rule table is kept in the dictionary's
    iteration order.  An exception leaves the loop at once; the partly
    rewritten table the Python code then holds is not represented, the
    exception is. *)
Fixpoint _process_time_rules (time_rules : list (string * list (list Z)))
  : result (list (string * list rule_dict)) :=
  match time_rules with
  | [] => Ok []
  | (symbol, rules) :: rest =>
      let* rules' := process_rules rules in
      let* rest' := _process_time_rules rest in
      Ok ((symbol, rules') :: rest')
  end.

(** *** The marker files *)

Inductive file_data : Type :=
| Text (contents : string)
| Undecodable
| Unreadable.

Inductive node : Type :=
| RegularFile (data : file_data)
| Directory.

(** [os.path.isfile(path)] *)
Definition isfile (fs : gmap string node) (path : string) : bool :=
  match fs !! path with
  | Some (RegularFile _) => true
  | _ => false
  end.

(** [with open(path, 'r') as f: f.readline()] *)
Definition open_readline (fs : gmap string node) (path : string) : result string :=
  match fs !! path with
  | None => Raise FileNotFoundError
  | Some Directory => Raise IsADirectoryError
  | Some (RegularFile Unreadable) => Raise PermissionError
  | Some (RegularFile Undecodable) => Raise UnicodeDecodeError
  | Some (RegularFile (Text contents)) => Ok (Py.readline contents)
  end.

(** [except (FileNotFoundError, ValueError, IOError)]: [IOError] is
    [OSError], the base of the file-system errors, and [ValueError] is the
    base of [UnicodeDecodeError]. *)
Definition probe_handles (e : exn) : bool :=
  match e with
  | FileNotFoundError | IsADirectoryError | PermissionError
  | UnicodeDecodeError | ValueError => true
  | IndexError | ZeroDivisionError => false
  end.

Definition marker_path (symbol data_type : string) : string :=
  LASTQ_DIR +:+ "/" +:+ symbol +:+ "." +:+ data_type.

Definition read_last_timestamp (fs : gmap string node) (symbol data_type : string)
  : result Z :=
  let filename := marker_path symbol data_type in
  try_except
    (let* line := open_readline fs filename in Py.int (Py.strip line))
    probe_handles
    (Ok 0).

(** *** Notification commands *)

(** What one pass does that can be seen from outside, in program order:
    the write [last_alert_times[symbol] = current_timestamp], the alert line
    of the log, and each notification command, run or skipped. *)
Inductive event : Type :=
| Recorded (symbol : string) (timestamp : Z)
| Alert (symbol header body : string)
| Ran (final_command : string)
| SkipRun (final_command : string).

(** [execute_alert_command]; [Ran] stands for the [subprocess.call]. *)
Definition execute_alert_command (command_template header body : string) : event :=
  let final_command :=
    Py.replace (Py.replace command_template "{HEADER}" header) "{BODY}" body in
  if Py.startswith (Py.strip final_command) "#"
  then SkipRun final_command
  else Ran final_command.

(** *** Weekdays and windows *)

(** [int(math.pow(10, 7 - weekday))].  The power of ten is an exact double
    up to [10^22], and a negative exponent gives a double below one, which
    truncates to [0] as [Z.pow] does. *)
Definition get_weekday_bitmap (weekday : Z) : Z := 10 ^ (7 - weekday).

Definition is_within_time_range (current_time begin_time end_time : Z) : bool :=
  (begin_time <=? current_time) && (current_time <? end_time).

(** [int(a / b)]: true division, then truncation towards zero.  For
    [|a| < 2^32] and [0 < b <= 10^6] the double quotient lies within
    [2^-21] of the exact one, which is at least [10^-6] away from the next
    integer, so the truncation is the integer quotient.  Outside that range
    the code's quotient is rounded (above [2^53]) or raises [OverflowError]
    (beyond the doubles), which this function does not show: the statements
    about it take masks of at most seven digits. *)
Definition int_truediv (a b : Z) : result Z :=
  if b =? 0 then Raise ZeroDivisionError else Ok (Z.quot a b).

(** [int(rule['WeekVal'] / current_weekday_bitmap) % 10 == 1] *)
Definition weekday_matches (rule : rule_dict) (current_weekday_bitmap : Z) : result bool :=
  let* q := int_truediv (WeekVal rule) current_weekday_bitmap in
  Ok (q mod 10 =? 1).

(** The entries of [matching_rules]. *)
Record matching_rule : Type := {
  Symbol : string;
  RuleIdx : nat;
  Rule : rule_dict
}.

(** The inner loop of [get_matching_rules], [rule_idx] counting from
    [start]. *)
Fixpoint matching_of_symbol (symbol : string) (start : nat) (rules : list rule_dict)
    (current_weekday_bitmap : Z) : result (list matching_rule) :=
  match rules with
  | [] => Ok []
  | rule :: rest =>
      let* hit := weekday_matches rule current_weekday_bitmap in
      let* rest' := matching_of_symbol symbol (S start) rest current_weekday_bitmap in
      Ok (if hit
          then {| Symbol := symbol; RuleIdx := start; Rule := rule |} :: rest'
          else rest')
  end.

Fixpoint get_matching_rules (time_rules : list (string * list rule_dict))
    (current_weekday_bitmap : Z) : result (list matching_rule) :=
  match time_rules with
  | [] => Ok []
  | (symbol, rules) :: rest =>
      let* here := matching_of_symbol symbol 0 rules current_weekday_bitmap in
      let* rest' := get_matching_rules rest current_weekday_bitmap in
      Ok ((here ++ rest')%list)
  end.

(** *** Throttle *)

Definition skip_file (symbol : string) : string :=
  TEMP_DIR +:+ "/TQAlert.skip." +:+ symbol.

Definition should_skip_symbol (fs : gmap string node) (symbol : string)
    (last_alert_times : gmap string Z) (current_time : Z) : bool * string :=
  if isfile fs (skip_file symbol)
  then (true, "Skip file " +:+ skip_file symbol +:+ " exists")
  else
    match last_alert_times !! symbol with
    | Some last =>
        if current_time <? last + MIN_ALERT_INTERVAL
        then (true, "Symbol alerted in past " +:+ Py.str MIN_ALERT_INTERVAL +:+ " seconds")
        else (false, "")
    | None => (false, "")
    end.

(** *** Staleness *)

Definition check_symbol_alerts (fs : gmap string node) (rule : matching_rule)
    (current_time : Z) (last_alert_times : gmap string Z) : result (string * string) :=
  let symbol := Symbol rule in
  let rule_config := Rule rule in
  let hb := ("", "") in
  let* hb :=
    if QuoteSec rule_config >? 0 then
      let* last_quote_time := read_last_timestamp fs symbol "LastQ" in
      Ok (if current_time >? last_quote_time + QuoteSec rule_config
          then ("No Quote Alert",
                symbol +:+ " has no quote for " +:+ Py.str (QuoteSec rule_config) +:+ " seconds!")
          else hb)
    else Ok hb in
  let* hb :=
    if TickSec rule_config >? 0 then
      let* last_tick_time := read_last_timestamp fs symbol "LastT" in
      Ok (if current_time >? last_tick_time + TickSec rule_config
          then ("No Tick Alert",
                symbol +:+ " has no tick for " +:+ Py.str (TickSec rule_config) +:+ " seconds!")
          else hb)
    else Ok hb in
  Ok hb.

(** *** One pass over the matching rules *)

(** What the loop of [monitor_symbols] carries from rule to rule: the
    [last_alert_times] dictionary and what has been sent so far. *)
Record state : Type := {
  last_alert_times : gmap string Z;
  trace : list event
}.

(** [if header:] *)
Definition truthy (s : string) : bool :=
  match s with
  | "" => false
  | _ => true
  end.

(** The body of [for rule in matching_rules]. *)
Definition monitor_rule (fs : gmap string node) (alert_commands : list string)
    (current_time current_timestamp : Z) (st : state) (rule : matching_rule)
  : result state :=
  let symbol := Symbol rule in
  let rule_config := Rule rule in
  if negb (is_within_time_range current_time (BegOffset rule_config) (End' rule_config))
  then Ok st
  else
    let '(should_skip, skip_reason) :=
      should_skip_symbol fs symbol (last_alert_times st) current_timestamp in
    if should_skip then Ok st
    else
      let* alert :=
        check_symbol_alerts fs rule current_timestamp (last_alert_times st) in
      let '(header, body) := alert in
      if truthy header then
        Ok {| last_alert_times := <[symbol := current_timestamp]> (last_alert_times st);
              trace := (trace st
                        ++ Recorded symbol current_timestamp
                        :: Alert symbol header body
                        :: map (fun cmd => execute_alert_command cmd header body)
                             alert_commands)%list |}
      else Ok st.

Fixpoint monitor_rules (fs : gmap string node) (alert_commands : list string)
    (current_time current_timestamp : Z) (st : state) (matching_rules : list matching_rule)
  : result state :=
  match matching_rules with
  | [] => Ok st
  | rule :: rest =>
      let* st' := monitor_rule fs alert_commands current_time current_timestamp st rule in
      monitor_rules fs alert_commands current_time current_timestamp st' rest
  end.

End TQAlert.

(** ** [tools/for_web/cgi-bin/eConf.py] *)

Module EConf.

(** The one-character strings for the double quote, the single quote and
    the backslash. *)
Definition dquote : string := String "034" "".
Definition squote : string := String "039" "".
Definition backslash : string := String "092" "".

Definition escape_config_value (value : string) : string :=
  Py.replace (Py.replace (Py.replace value backslash "&bsol;") dquote "&quot;")
    squote "&apos;".

Definition unescape_config_value (value : string) : string :=
  Py.replace (Py.replace (Py.replace value "&quot;" dquote) "&apos;" squote)
    "&bsol;" backslash.

(** No character of [s] is an ampersand. *)
Fixpoint no_ampersand (s : string) : bool :=
  match s with
  | "" => true
  | String c s' => negb (Ascii.eqb "&" c) && no_ampersand s'
  end.

End EConf.

(** ** Notions the statements below are phrased with *)

Module Digits.

(** The value of a string all of whose characters are decimal digits,
    continuing from [acc]. *)
Fixpoint value (acc : Z) (s : string) : Z :=
  match s with
  | "" => acc
  | String c s' => value (10 * acc + (Z.of_nat (nat_of_ascii c) - 48)) s'
  end.

Definition is_digit (c : ascii) : bool :=
  match Py.digit_val c with
  | Some _ => true
  | None => false
  end.

Fixpoint all_digits (s : string) : bool :=
  match s with
  | "" => true
  | String c s' => is_digit c && all_digits s'
  end.

(** No character of [s] is white space. *)
Fixpoint no_space (s : string) : bool :=
  match s with
  | "" => true
  | String c s' => negb (Py.is_space c) && no_space s'
  end.

(** The decimal digit of weight [10^k] of [n]. *)
Definition digit (n k : Z) : Z := (n / 10 ^ k) mod 10.

End Digits.

Module Clock.

(** The seconds since midnight an [HHMMSS] integer stands for. *)
Definition seconds_of (t : Z) : Z :=
  (t / 10000) * 3600 + ((t / 100) mod 100) * 60 + t mod 100.

(** The [HHMMSS] integer of a number of seconds; the hour field is not
    reduced. *)
Definition of_seconds (s : Z) : Z :=
  (s / 3600) * 10000 + ((s / 60) mod 60) * 100 + s mod 60.

(** A wall-clock time between 00:00:00 and 23:59:59. *)
Definition valid (t : Z) : Prop :=
  0 <= t / 10000 < 24 ∧ (t / 100) mod 100 < 60 ∧ t mod 100 < 60.

(** A threshold the offset computation takes into account. *)
Definition usable (threshold : Z) : Prop := 0 < threshold < 86400.

(** [m] is the least usable threshold among [tick_sec] and [quote_sec], or
    [0] when neither is usable. *)
Definition least_usable (m tick_sec quote_sec : Z) : Prop :=
  (¬ usable tick_sec ∧ ¬ usable quote_sec ∧ m = 0)
  ∨ ((usable tick_sec ∧ m = tick_sec ∨ usable quote_sec ∧ m = quote_sec)
     ∧ (usable tick_sec → m <= tick_sec)
     ∧ (usable quote_sec → m <= quote_sec)).

(** The specification's reading: the minimum of the nonzero thresholds,
    [0] when both are zero. *)
Definition spec_min_nonzero (tick_sec quote_sec : Z) : Z :=
  if tick_sec =? 0 then quote_sec
  else if quote_sec =? 0 then tick_sec
  else Z.min tick_sec quote_sec.

(** The specification's reading of the encoding, rolling at 24:00:00. *)
Definition spec_of_seconds_rolling (s : Z) : Z := of_seconds (s mod 86400).

End Clock.

Module Probe.
Import TQAlert.

(** The marker at [path] cannot be read as an integer: it is absent, not a
    regular file, unreadable, undecodable, or [int] rejects its first
    line. *)
Definition unusable (fs : gmap string node) (path : string) : Prop :=
  match fs !! path with
  | Some (RegularFile (Text contents)) =>
      ∃ e, Py.int (Py.strip (Py.readline contents)) = Raise e
  | _ => True
  end.

End Probe.

Module Trace.
Import TQAlert.

Definition is_alert (e : event) : bool :=
  match e with
  | Alert _ _ _ => true
  | _ => false
  end.

(** How many alerts a trace holds. *)
Definition alert_count (t : list event) : nat := length (filter is_alert t).

Definition is_command (e : event) : bool :=
  match e with
  | Ran _ | SkipRun _ => true
  | _ => false
  end.

(** How many notification commands were handled. *)
Definition command_count (t : list event) : nat := length (filter is_command t).

Definition is_alert_for (symbol : string) (e : event) : bool :=
  match e with
  | Alert s _ _ => String.eqb s symbol
  | _ => false
  end.

(** How many alerts for [symbol] a trace holds. *)
Definition alerts_for (symbol : string) (t : list event) : nat :=
  length (filter (is_alert_for symbol) t).

(** What a fired rule appends to the trace. *)
Definition dispatch (symbol : string) (timestamp : Z) (header body : string)
    (alert_commands : list string) : list event :=
  Recorded symbol timestamp
  :: Alert symbol header body
  :: map (fun cmd => execute_alert_command cmd header body) alert_commands.

End Trace.

(** ** Sample configurations *)

Module Samples.
Import TQAlert.

(** A day session watched for ticks only. *)
Definition day_raw : list (string * list (list Z)) :=
  [("TXF", [[1111100; 84500; 134500; 60; 0]])].
Definition day_rule : rule_dict :=
  {| WeekVal := 1111100; Beg := 84500; End' := 134500;
     TickSec := 60; QuoteSec := 0; BegOffset := 84600 |}.

Definition day_table : list (string * list rule_dict) := [("TXF", [day_rule])].

(** A tick threshold of twenty-five hours. *)
Definition long_raw : list (string * list (list Z)) :=
  [("TXF", [[1111111; 0; 235959; 90000; 0]])].
Definition long_rule : rule_dict :=
  {| WeekVal := 1111111; Beg := 0; End' := 235959;
     TickSec := 90000; QuoteSec := 0; BegOffset := 0 |}.

(** A window that opens thirty seconds before midnight. *)
Definition late_raw : list (string * list (list Z)) :=
  [("TXF", [[1111100; 235930; 235959; 60; 0]])].
Definition late_rule : rule_dict :=
  {| WeekVal := 1111100; Beg := 235930; End' := 235959;
     TickSec := 60; QuoteSec := 0; BegOffset := 240030 |}.

(** Marker files: the last quote at 1000, the last tick at 1010. *)
Definition markers : gmap string node :=
  <[marker_path "TXF" "LastQ" := RegularFile (Text "1000")]>
    (<[marker_path "TXF" "LastT" := RegularFile (Text ("1010" +:+ String "010" ""))]> ∅).

(** The same, with the symbol muted. *)
Definition muted : gmap string node :=
  <[skip_file "TXF" := RegularFile (Text "")]> markers.

Definition day_match : matching_rule :=
  {| Symbol := "TXF"; RuleIdx := 0; Rule := day_rule |}.

(** A rule watching both signals. *)
Definition both_rule : rule_dict :=
  {| WeekVal := 1111100; Beg := 84500; End' := 134500;
     TickSec := 60; QuoteSec := 30; BegOffset := 84530 |}.
Definition both_match : matching_rule :=
  {| Symbol := "TXF"; RuleIdx := 0; Rule := both_rule |}.

Definition start : state := {| last_alert_times := ∅; trace := [] |}.

End Samples.

(** ** The rest of [tools/TQAlert.py] and of [eConf.py] *)

Module Os.




End Os.

Module Driver.
Import TQAlert.

Definition SLEEP_INTERVAL : Z := 5.

Definition config_change_file : string := TEMP_DIR +:+ "/TQAlert.confchange".

(** [check_config_change].  The test [current_time < last_change_time +
    SLEEP_INTERVAL * 1.5] compares an integer with a double that is exact (a
    multiple of one half) for every time below [2^50]; it is written here on
    the doubled integers.  For a stored value above [2^53] the code's sum is
    rounded, and beyond the doubles it raises an [OverflowError] that the
    handler does not catch; this function does not show either, and the
    statements about it take a stored value below [2^50] in size. *)
Definition check_config_change (fs : gmap string node) (current_time : Z) : result bool :=
  try_except
    (let* line := open_readline fs config_change_file in
     let* last_change_time := Py.int (Py.strip line) in
     Ok (2 * current_time <? 2 * last_change_time + 3 * SLEEP_INTERVAL))
    probe_handles
    (Ok false).

(** The unescaping [read_config_from_cassandra] applies to the stored
    configuration before [json.loads]. *)
Definition unescape_config_json (config_json : string) : string :=
  Py.replace
    (Py.replace (Py.replace config_json "&quot;" EConf.dquote) "&apos;" EConf.squote)
    "&bsol;" EConf.backslash.

Definition test_cmd_file (cmd_idx : nat) : string :=
  TEMP_DIR +:+ "/TQAlert.testcmd." +:+ Py.str (Z.of_nat cmd_idx).

Definition test_message (cmd_idx : nat) : string :=
  "Hello, this is test of TQAlert#" +:+ Py.str (Z.of_nat cmd_idx + 1) +:+ ".".

(** The loop of [process_test_commands] from index [cmd_idx] on: the files
    left and the commands handled.  [os.remove] of a regular file is taken to
    succeed. *)
Fixpoint test_commands_from (cmd_idx : nat) (alert_commands : list string)
    (fs : gmap string node) : gmap string node * list event :=
  match alert_commands with
  | [] => (fs, [])
  | cmd :: rest =>
      if isfile fs (test_cmd_file cmd_idx) then
        let e := execute_alert_command cmd "!!TEST!!" (test_message cmd_idx) in
        let '(fs', events) :=
          test_commands_from (S cmd_idx) rest (delete (test_cmd_file cmd_idx) fs) in
        (fs', e :: events)
      else test_commands_from (S cmd_idx) rest fs
  end.

Definition process_test_commands (fs : gmap string node) (alert_commands : list string)
  : gmap string node * list event :=
  test_commands_from 0 alert_commands fs.

(** The value [monitor_symbols] gives [last_check_weekday] at start and
    after a reload. *)
Definition INITIAL_WEEKDAY : Z := 0.
Definition FORCE_REFRESH : Z := 999.

(** The step [if last_check_weekday != current_weekday_bitmap] of
    [monitor_symbols]: the new [last_check_weekday] and [matching_rules]. *)
Definition refresh_matching_rules (time_rules : list (string * list rule_dict))
    (current_weekday_bitmap last_check_weekday : Z) (matching_rules : list matching_rule)
  : result (Z * list matching_rule) :=
  if negb (last_check_weekday =? current_weekday_bitmap) then
    let* found := get_matching_rules time_rules current_weekday_bitmap in
    Ok (current_weekday_bitmap, found)
  else Ok (last_check_weekday, matching_rules).

End Driver.

Module Signal.
Import TQAlert.



End Signal.

Module Limits.

(** [sys.int_info.default_max_str_digits]: [int] of a string with more
    digits, and [str] of an integer with more digits, raise [ValueError]. *)
Definition max_str_digits : nat := 4300.

(** An integer whose decimal form stays within the limit. *)
Definition printable (n : Z) : Prop := Z.abs n < 10 ^ 4300.

(** A string short enough for [int] whatever it holds. *)
Definition short (s : string) : Prop := (String.length s <= max_str_digits)%nat.

(** An integer that is exact as a double together with its halves. *)
Definition exact_time (t : Z) : Prop := Z.abs t < 2 ^ 50.

End Limits.

Module Escaped.

(** No character of [s] is [c]. *)
Fixpoint free_of (c : ascii) (s : string) : bool :=
  match s with
  | "" => true
  | String x rest => negb (Ascii.eqb c x) && free_of c rest
  end.

End Escaped.

Example str_examples :
  Py.str 0 = "0" ∧ Py.str 84600 = "84600" ∧ Py.str (-12) = "-12" ∧
  Py.format_02d 8 = "08" ∧ Py.format_02d 46 = "46" ∧ Py.format_02d 123 = "123" ∧
  Py.format_02d (-1) = "-1".
Proof. repeat split; reflexivity. Qed.

Example int_examples :
  Py.int "084600" = Ok 84600 ∧ Py.int " -15959 " = Ok (-15959) ∧
  Py.int "1_000" = Ok 1000 ∧ Py.int "" = Raise ValueError ∧
  Py.int "12a" = Raise ValueError ∧ Py.int "1__0" = Raise ValueError ∧
  Py.int (String "028" "5") = Raise ValueError ∧ Py.strip (String "028" "5") = "5".
Proof. repeat split; reflexivity. Qed.

Example replace_examples :
  Py.replace "a\b\\c" EConf.backslash "&bsol;" = "a&bsol;b&bsol;&bsol;c" ∧
  Py.replace "aaa" "aa" "b" = "ba" ∧
  Py.replace "ab" "" "-" = "-a-b-".
Proof. repeat split; reflexivity. Qed.

(** ** Decimal printing and parsing *)

(** Case analysis on the eight bits of a character. *)
Ltac each_char c := destruct c as [[] [] [] [] [] [] [] []].

Section strings.

Lemma append_cons (c : ascii) (a b : string) : String c a +:+ b = String c (a +:+ b).
Proof. reflexivity. Qed.

Lemma append_nil_l (s : string) : "" +:+ s = s.
Proof. reflexivity. Qed.

Lemma append_nil_r (s : string) : s +:+ "" = s.
Proof. induction s as [| c s IH]; [done |]. by rewrite append_cons, IH. Qed.

Lemma append_assoc (a b c : string) : (a +:+ b) +:+ c = a +:+ (b +:+ c).
Proof. induction a as [| x a IH]; [done |]. by rewrite !append_cons, IH. Qed.

End strings.

Section python_numbers.

Lemma digit_val_digit_char d :
  0 <= d <= 9 → Py.digit_val (Py.digit_char d) = Some d.
Proof.
  intros Hd.
  assert (Hc : d = 0 ∨ d = 1 ∨ d = 2 ∨ d = 3 ∨ d = 4 ∨ d = 5 ∨ d = 6 ∨ d = 7
               ∨ d = 8 ∨ d = 9) by lia.
  repeat (destruct Hc as [-> | Hc]; [reflexivity |]).
  subst d; reflexivity.
Qed.

Lemma digit_char_code d :
  0 <= d <= 9 → Z.of_nat (nat_of_ascii (Py.digit_char d)) - 48 = d.
Proof.
  intros Hd.
  assert (Hc : d = 0 ∨ d = 1 ∨ d = 2 ∨ d = 3 ∨ d = 4 ∨ d = 5 ∨ d = 6 ∨ d = 7
               ∨ d = 8 ∨ d = 9) by lia.
  repeat (destruct Hc as [-> | Hc]; [reflexivity |]).
  subst d; reflexivity.
Qed.

Lemma is_digit_digit_char d : 0 <= d <= 9 → Digits.is_digit (Py.digit_char d) = true.
Proof. intros Hd. unfold Digits.is_digit. by rewrite digit_val_digit_char. Qed.

Lemma digit_val_code c d :
  Py.digit_val c = Some d → Z.of_nat (nat_of_ascii c) - 48 = d.
Proof.
  unfold Py.digit_val. intros H.
  destruct (_ && _); by inversion H.
Qed.

Lemma mod10_range n : 0 <= n mod 10 <= 9.
Proof. pose proof (Z.mod_pos_bound n 10). lia. Qed.

Lemma digits_aux_S fuel n acc :
  Py.digits_aux (S fuel) n acc =
  if n <? 10 then String (Py.digit_char (n mod 10)) acc
  else Py.digits_aux fuel (n / 10) (String (Py.digit_char (n mod 10)) acc).
Proof. reflexivity. Qed.

(** Appending to the digits of a number. *)
Lemma digits_aux_app fuel n acc rest :
  Py.digits_aux fuel n acc +:+ rest = Py.digits_aux fuel n (acc +:+ rest).
Proof.
  revert n acc. induction fuel as [| fuel IH]; intros n acc; simpl; [done |].
  destruct (n <? 10); [done |]. by rewrite IH.
Qed.

Lemma all_digits_app s t :
  Digits.all_digits (s +:+ t) = Digits.all_digits s && Digits.all_digits t.
Proof.
  induction s as [| c s IH]; simpl; [done |].
  by rewrite IH, andb_assoc.
Qed.

Lemma value_app acc s t : Digits.value acc (s +:+ t) = Digits.value (Digits.value acc s) t.
Proof. revert acc. induction s as [| c s IH]; intros acc; simpl; [done |]. apply IH. Qed.

Lemma all_digits_aux fuel n acc :
  Digits.all_digits acc = true → Digits.all_digits (Py.digits_aux fuel n acc) = true.
Proof.
  revert n acc. induction fuel as [| fuel IH]; intros n acc Hacc;
    cbn [Py.digits_aux]; [done |].
  assert (Hstep : Digits.all_digits (String (Py.digit_char (n mod 10)) acc) = true).
  { cbn [Digits.all_digits]. rewrite is_digit_digit_char by apply mod10_range. done. }
  destruct (n <? 10); [done |]. by apply IH.
Qed.

(** With enough fuel the digits pushed in front of [acc] read back as [n]. *)
Lemma value_digits_aux fuel n acc :
  0 <= n < 10 ^ Z.of_nat (S fuel) →
  Digits.value 0 (Py.digits_aux (S fuel) n acc) = Digits.value n acc.
Proof.
  revert n acc. induction fuel as [| fuel IH]; intros n acc Hn.
  - cbn [Py.digits_aux]. change (10 ^ Z.of_nat 1) with 10 in Hn.
    destruct (Z.ltb_spec n 10); [| lia].
    cbn [Digits.value]. rewrite digit_char_code by apply mod10_range.
    rewrite Z.mod_small by lia. done.
  - rewrite digits_aux_S. destruct (Z.ltb_spec n 10) as [Hlt | Hge].
    + cbn [Digits.value]. rewrite digit_char_code by apply mod10_range.
      rewrite Z.mod_small by lia. done.
    + rewrite IH.
      * cbn [Digits.value]. rewrite digit_char_code by apply mod10_range.
        f_equal. pose proof (Z.div_mod n 10). lia.
      * rewrite Nat2Z.inj_succ, Z.pow_succ_r in Hn by lia.
        split; [apply Z.div_pos; lia |].
        apply Z.div_lt_upper_bound; lia.
Qed.

Lemma log2_fuel n : 0 <= n → n < 10 ^ Z.of_nat (S (Z.to_nat (Z.log2 n))).
Proof.
  intros Hn. rewrite Nat2Z.inj_succ, Z2Nat.id by apply Z.log2_nonneg.
  destruct (Z.eq_dec n 0) as [-> | Hnz]; [done |].
  pose proof (Z.log2_spec n ltac:(lia)) as [_ Hup].
  eapply Z.lt_le_trans; [exact Hup |].
  apply Z.pow_le_mono_l. lia.
Qed.

Lemma value_str_nat n : 0 <= n → Digits.value 0 (Py.str_nat n) = n.
Proof.
  intros Hn. unfold Py.str_nat.
  rewrite value_digits_aux; [done |]. split; [done |]. by apply log2_fuel.
Qed.

Lemma all_digits_str_nat n : Digits.all_digits (Py.str_nat n) = true.
Proof. by apply all_digits_aux. Qed.

Lemma digits_aux_nonempty fuel n acc : Py.digits_aux (S fuel) n acc ≠ "".
Proof.
  revert n acc. induction fuel as [| fuel IH]; intros n acc.
  - cbn [Py.digits_aux]. by destruct (n <? 10).
  - rewrite digits_aux_S. destruct (n <? 10); [done | apply IH].
Qed.

Lemma str_nat_nonempty n : Py.str_nat n ≠ "".
Proof. apply digits_aux_nonempty. Qed.

Lemma digit_not_space c : Digits.is_digit c = true → Py.is_space c = false.
Proof. each_char c; vm_compute; congruence. Qed.

Lemma digit_no_sign c s :
  Digits.is_digit c = true →
  Py.int_signed (String c s) = Py.int_digits 0 Py.AtStart (String c s).
Proof. each_char c; vm_compute Digits.is_digit; intros H; try discriminate H; reflexivity. Qed.

Lemma all_digits_no_space s : Digits.all_digits s = true → Digits.no_space s = true.
Proof.
  induction s as [| c s IH]; cbn [Digits.all_digits Digits.no_space]; [done |].
  intros [Hc Hs]%andb_prop. rewrite (digit_not_space c Hc). by rewrite IH.
Qed.

(** Stripping, by any notion of space within [str.isspace], leaves a
    string without white space alone. *)
Section stripping.
Variable space : ascii → bool.
Hypothesis space_is_space : ∀ c, Py.is_space c = false → space c = false.

Lemma lstrip_with_head c s :
  Py.is_space c = false → Py.lstrip_with space (String c s) = String c s.
Proof. intros Hc. cbn [Py.lstrip_with]. by rewrite space_is_space. Qed.

Lemma lstrip_with_no_space s : Digits.no_space s = true → Py.lstrip_with space s = s.
Proof.
  destruct s as [| c s]; cbn [Digits.no_space]; [done |].
  intros [Hc _]%andb_prop. apply negb_true_iff in Hc. by apply lstrip_with_head.
Qed.

Lemma rstrip_with_no_space s : Digits.no_space s = true → Py.rstrip_with space s = s.
Proof.
  induction s as [| c s IH]; cbn [Digits.no_space Py.rstrip_with]; [done |].
  intros [Hc Hs]%andb_prop. apply negb_true_iff in Hc. rewrite IH by done.
  destruct s; [| done]. by rewrite space_is_space.
Qed.

Lemma strip_with_no_space s : Digits.no_space s = true → Py.strip_with space s = s.
Proof.
  intros H. unfold Py.strip_with. rewrite lstrip_with_no_space by done.
  by apply rstrip_with_no_space.
Qed.

End stripping.

Lemma int_space_is_space c : Py.is_space c = false → Py.is_int_space c = false.
Proof. each_char c; vm_compute; congruence. Qed.

Lemma strip_no_space s : Digits.no_space s = true → Py.strip s = s.
Proof. by apply strip_with_no_space. Qed.

Lemma int_strip_no_space s :
  Digits.no_space s = true → Py.strip_with Py.is_int_space s = s.
Proof. apply strip_with_no_space, int_space_is_space. Qed.

Lemma int_digits_all_digits acc st c s :
  Digits.all_digits (String c s) = true →
  Py.int_digits acc st (String c s) = Some (Digits.value acc (String c s)).
Proof.
  revert acc st c. induction s as [| c' s IH]; intros acc st c;
    cbn [Digits.all_digits]; intros [Hc Hs]%andb_prop.
  - cbn [Py.int_digits Digits.value]. unfold Digits.is_digit in Hc.
    destruct (Py.digit_val c) as [d |] eqn:Hd; [| done].
    by rewrite (digit_val_code c d Hd).
  - change (Py.int_digits acc st (String c (String c' s)))
      with (match Py.digit_val c with
            | Some d => Py.int_digits (10 * acc + d) Py.AfterDigit (String c' s)
            | None =>
                if Ascii.eqb c "_" then
                  match st with
                  | Py.AfterDigit => Py.int_digits acc Py.AfterUnderscore (String c' s)
                  | _ => None
                  end
                else None
            end).
    unfold Digits.is_digit in Hc.
    destruct (Py.digit_val c) as [d |] eqn:Hd; [| done].
    rewrite IH by done.
    change (Digits.value acc (String c (String c' s)))
      with (Digits.value (10 * acc + (Z.of_nat (nat_of_ascii c) - 48)) (String c' s)).
    by rewrite (digit_val_code c d Hd).
Qed.

(** [int] reads a non-empty string of digits as its decimal value. *)
Lemma int_all_digits s :
  Digits.all_digits s = true → s ≠ "" → Py.int s = Ok (Digits.value 0 s).
Proof.
  intros Hs Hne. unfold Py.int.
  rewrite int_strip_no_space by by apply all_digits_no_space.
  destruct s as [| c s]; [done |].
  assert (Hc : Digits.is_digit c = true).
  { cbn [Digits.all_digits] in Hs. by apply andb_prop in Hs as [? _]. }
  rewrite digit_no_sign by done.
  by rewrite int_digits_all_digits.
Qed.

(** ... and the same after a minus sign as the opposite. *)
Lemma int_minus_all_digits s :
  Digits.all_digits s = true → s ≠ "" → Py.int (String "-" s) = Ok (- Digits.value 0 s).
Proof.
  intros Hs Hne. unfold Py.int.
  rewrite int_strip_no_space
    by (cbn [Digits.no_space]; by rewrite all_digits_no_space).
  change (Py.int_signed (String "-" s)) with (Z.opp <$> Py.int_digits 0 Py.AtStart s).
  destruct s as [| c s]; [done |].
  by rewrite int_digits_all_digits.
Qed.

Lemma all_digits_zeros k : Digits.all_digits (Py.zeros k) = true.
Proof. induction k; [done |]. cbn [Py.zeros Digits.all_digits]. by rewrite IHk. Qed.

Lemma value_zeros k : Digits.value 0 (Py.zeros k) = 0.
Proof. induction k as [| k IH]; [done |]. cbn [Py.zeros Digits.value]. exact IH. Qed.

Lemma format_02d_nonneg n :
  0 <= n →
  Digits.all_digits (Py.format_02d n) = true ∧ Py.format_02d n ≠ ""
  ∧ Digits.value 0 (Py.format_02d n) = n.
Proof.
  intros Hn. unfold Py.format_02d, Py.pad0.
  destruct (Z.ltb_spec n 0); [lia |]. split; [| split].
  - by rewrite all_digits_app, all_digits_zeros, all_digits_str_nat.
  - pose proof (str_nat_nonempty n). destruct (Py.zeros _); [done | done].
  - by rewrite value_app, value_zeros, value_str_nat.
Qed.

(** Below one hundred the format has exactly two digits. *)
Lemma format_02d_two_digits n :
  0 <= n < 100 →
  Py.format_02d n = String (Py.digit_char (n / 10)) (String (Py.digit_char (n mod 10)) "").
Proof.
  intros Hn.
  assert (Hall : forallb (fun k => String.eqb (Py.format_02d (Z.of_nat k))
      (String (Py.digit_char (Z.of_nat k / 10))
         (String (Py.digit_char (Z.of_nat k mod 10)) ""))) (seq 0 100) = true)
    by (vm_compute; reflexivity).
  rewrite forallb_forall in Hall.
  specialize (Hall (Z.to_nat n)). rewrite Z2Nat.id in Hall by lia.
  apply String.eqb_eq, Hall, in_seq. lia.
Qed.

Lemma value_two_digits acc n :
  0 <= n < 100 → Digits.value acc (Py.format_02d n) = 100 * acc + n.
Proof.
  intros Hn. rewrite format_02d_two_digits by done. cbn [Digits.value].
  assert (0 <= n / 10 <= 9) by (pose proof (Z.div_mod n 10); pose proof (mod10_range n); lia).
  rewrite !digit_char_code by (done || apply mod10_range).
  pose proof (Z.div_mod n 10). lia.
Qed.

End python_numbers.

(** ** Begin offsets ([_process_time_rules]) *)

Section begin_offset.
Import TQAlert.

Lemma to_hhmmss_nonneg total :
  0 <= total → to_hhmmss total = Ok (Clock.of_seconds total).
Proof.
  intros Ht. unfold to_hhmmss, Clock.of_seconds.
  assert (Hh : 0 <= total / 3600) by (apply Z.div_pos; lia).
  pose proof (Z.mod_pos_bound (total / 60) 60 ltac:(lia)) as Hm.
  pose proof (Z.mod_pos_bound total 60 ltac:(lia)) as Hs.
  destruct (format_02d_nonneg (total / 3600) Hh) as (Hd & Hne & Hv).
  rewrite int_all_digits.
  - rewrite !value_app, Hv, !value_two_digits by lia. f_equal. lia.
  - rewrite !all_digits_app, Hd.
    destruct (format_02d_nonneg ((total / 60) mod 60)) as (-> & _ & _); [lia |].
    by destruct (format_02d_nonneg (total mod 60)) as (-> & _ & _); [lia |].
  - destruct (Py.format_02d (total / 3600)); done.
Qed.

(** Without the limit on digits, the conversion raises for no total,
    negative ones included. *)
Lemma to_hhmmss_total total : ∃ v, to_hhmmss total = Ok v.
Proof.
  destruct (Z.lt_ge_cases total 0) as [Hneg | Hpos];
    [| rewrite to_hhmmss_nonneg by done; eauto].
  unfold to_hhmmss.
  assert (Hh : total / 3600 < 0) by (apply Z.div_lt_upper_bound; lia).
  pose proof (Z.mod_pos_bound (total / 60) 60 ltac:(lia)) as Hm.
  pose proof (Z.mod_pos_bound total 60 ltac:(lia)) as Hs.
  unfold Py.format_02d at 1. destruct (Z.ltb_spec (total / 3600) 0); [| lia].
  rewrite append_cons, int_minus_all_digits; [eauto | |].
  - unfold Py.pad0.
    rewrite !all_digits_app, all_digits_zeros, all_digits_str_nat.
    destruct (format_02d_nonneg ((total / 60) mod 60)) as (-> & _ & _); [lia |].
    by destruct (format_02d_nonneg (total mod 60)) as (-> & _ & _); [lia |].
  - unfold Py.pad0. pose proof (str_nat_nonempty (- (total / 3600))).
    destruct (Py.zeros _); [| done].
    rewrite append_nil_l. by destruct (Py.str_nat _).
Qed.

Lemma total_seconds_nonneg interval begin_time :
  0 <= interval → 0 <= begin_time → 0 <= total_seconds interval begin_time.
Proof.
  intros Hi Hb. unfold total_seconds.
  assert (0 <= begin_time / 10000) by (apply Z.div_pos; lia).
  pose proof (Z.mod_pos_bound (begin_time / 100) 100 ltac:(lia)).
  pose proof (Z.mod_pos_bound begin_time 100 ltac:(lia)).
  lia.
Qed.

Ltac min_interval_cases tick_sec quote_sec :=
  destruct (Z.gtb_spec tick_sec 0), (Z.ltb_spec tick_sec 86400); cbn [andb];
  destruct (Z.gtb_spec quote_sec 0); cbn [andb];
  repeat match goal with
         | |- context [?a <? ?b] => destruct (Z.ltb_spec a b)
         | |- context [?a =? ?b] => destruct (Z.eqb_spec a b)
         end.

Lemma min_interval_range tick_sec quote_sec :
  0 <= min_interval tick_sec quote_sec < 86400.
Proof.
  unfold min_interval; cbv zeta.
  min_interval_cases tick_sec quote_sec; lia.
Qed.

(** The two guarded assignments pick the least usable threshold. *)
Lemma min_interval_least_usable tick_sec quote_sec :
  Clock.least_usable (min_interval tick_sec quote_sec) tick_sec quote_sec.
Proof.
  unfold min_interval, Clock.least_usable, Clock.usable; cbv zeta.
  min_interval_cases tick_sec quote_sec; lia.
Qed.

(** The three fields of an encoded time. *)
Lemma of_seconds_fields s :
  0 <= s →
  Clock.of_seconds s / 10000 = s / 3600
  ∧ (Clock.of_seconds s / 100) mod 100 = (s / 60) mod 60
  ∧ Clock.of_seconds s mod 100 = s mod 60.
Proof.
  intros Hs. unfold Clock.of_seconds.
  pose proof (Z.mod_pos_bound (s / 60) 60 ltac:(lia)) as Hm.
  pose proof (Z.mod_pos_bound s 60 ltac:(lia)) as Hsec.
  assert (Hh : 0 <= s / 3600) by (apply Z.div_pos; lia).
  set (h := s / 3600) in *. set (m := (s / 60) mod 60) in *. set (c := s mod 60) in *.
  assert (E1 : (h * 10000 + m * 100 + c) / 10000 = h).
  { symmetry. apply (Z.div_unique _ _ h (m * 100 + c)); lia. }
  assert (E2 : (h * 10000 + m * 100 + c) / 100 = h * 100 + m).
  { symmetry. apply (Z.div_unique _ _ (h * 100 + m) c); lia. }
  assert (E3 : (h * 10000 + m * 100 + c) mod 100 = c).
  { symmetry. apply (Z.mod_unique _ _ (h * 100 + m) c); lia. }
  assert (E4 : (h * 100 + m) mod 100 = m).
  { symmetry. apply (Z.mod_unique _ _ h m); lia. }
  by rewrite E1, E2, E3, E4.
Qed.

(** Decoding an encoded time gives the seconds back, whatever the hour. *)
Lemma seconds_of_of_seconds s : 0 <= s → Clock.seconds_of (Clock.of_seconds s) = s.
Proof.
  intros Hs. destruct (of_seconds_fields s Hs) as (E1 & E2 & E3).
  unfold Clock.seconds_of. rewrite E1, E2, E3.
  pose proof (Z.div_mod s 60 ltac:(lia)).
  pose proof (Z.div_mod (s / 60) 60 ltac:(lia)).
  rewrite Z.div_div in * by lia. change (60 * 60) with 3600 in *. lia.
Qed.

(** Encoding the seconds of a valid wall-clock time gives it back. *)
Lemma of_seconds_seconds_of t :
  0 <= t → (t / 100) mod 100 < 60 → t mod 100 < 60 →
  Clock.of_seconds (Clock.seconds_of t) = t.
Proof.
  intros Ht Hm Hs. unfold Clock.seconds_of, Clock.of_seconds.
  pose proof (Z.mod_pos_bound (t / 100) 100 ltac:(lia)) as Hm'.
  pose proof (Z.mod_pos_bound t 100 ltac:(lia)) as Hs'.
  assert (Hh : 0 <= t / 10000) by (apply Z.div_pos; lia).
  set (h := t / 10000) in *. set (m := (t / 100) mod 100) in *. set (c := t mod 100) in *.
  assert (Hdecomp : t = h * 10000 + m * 100 + c).
  { subst h m c. pose proof (Z.div_mod t 100 ltac:(lia)).
    pose proof (Z.div_mod (t / 100) 100 ltac:(lia)).
    rewrite Z.div_div in * by lia. change (100 * 100) with 10000 in *. lia. }
  assert (E1 : (h * 3600 + m * 60 + c) / 3600 = h).
  { symmetry. apply (Z.div_unique _ _ h (m * 60 + c)); lia. }
  assert (E2 : (h * 3600 + m * 60 + c) / 60 = h * 60 + m).
  { symmetry. apply (Z.div_unique _ _ (h * 60 + m) c); lia. }
  assert (E3 : (h * 3600 + m * 60 + c) mod 60 = c).
  { symmetry. apply (Z.mod_unique _ _ (h * 60 + m) c); lia. }
  assert (E4 : (h * 60 + m) mod 60 = m).
  { symmetry. apply (Z.mod_unique _ _ h m); lia. }
  rewrite E1, E2, E3, E4. lia.
Qed.

(** *** Loading succeeds on well-shaped tables *)

Lemma process_rule_params_total rule_params :
  (5 <= length rule_params)%nat → ∃ r, process_rule_params rule_params = Ok r.
Proof.
  intros Hlen.
  destruct rule_params as [| w [| b [| e [| t [| q rest]]]]]; cbn [length] in Hlen; try lia.
  unfold process_rule_params, item. cbn [lookup list_lookup bind].
  destruct (to_hhmmss_total (total_seconds (min_interval t q) b)) as (v & ->).
  cbn [bind]. eauto.
Qed.

Lemma process_rules_total rules :
  Forall (fun rule_params => (5 <= length rule_params)%nat) rules →
  ∃ loaded, process_rules rules = Ok loaded.
Proof.
  induction 1 as [| rule_params rest Hlen _ [loaded IH]]; [by exists [] |].
  destruct (process_rule_params_total rule_params Hlen) as (r & Hr).
  cbn [process_rules]. rewrite Hr, IH. cbn [bind]. eauto.
Qed.

(** A table all of whose rules have their five parameters is loaded (the
    limit on digits apart). *)
Lemma process_time_rules_total time_rules :
  Forall (fun entry => Forall (fun rule_params => (5 <= length rule_params)%nat) entry.2)
    time_rules →
  ∃ loaded, _process_time_rules time_rules = Ok loaded.
Proof.
  induction 1 as [| [symbol rules] rest Hrules _ [loaded IH]]; [by exists [] |].
  destruct (process_rules_total rules Hrules) as (rules' & Hr).
  cbn [_process_time_rules]. rewrite Hr, IH. cbn [bind]. eauto.
Qed.

(** A rule with fewer than five parameters stops the load. *)
Example short_rule_raises :
  _process_time_rules [("TXF", [[1111100; 84500; 134500; 60]])] = Raise IndexError.
Proof. reflexivity. Qed.

(** *** What a loaded table contains *)

Lemma process_rules_lookup rules loaded i r :
  process_rules rules = Ok loaded → loaded !! i = Some r →
  ∃ rule_params, rules !! i = Some rule_params ∧ process_rule_params rule_params = Ok r.
Proof.
  revert loaded i. induction rules as [| rule_params rest IH]; intros loaded i Hp Hi.
  - inversion Hp; subst. done.
  - cbn [process_rules] in Hp. unfold bind in Hp.
    destruct (process_rule_params rule_params) as [rule |] eqn:Hrule; [| done].
    destruct (process_rules rest) as [rest' |] eqn:Hrest; [| done].
    inversion Hp; subst loaded. destruct i as [| i].
    + inversion Hi; subst. by exists rule_params.
    + apply (IH rest' i eq_refl Hi).
Qed.

Lemma process_time_rules_elem time_rules loaded symbol rules :
  _process_time_rules time_rules = Ok loaded → (symbol, rules) ∈ loaded →
  ∃ raw, (symbol, raw) ∈ time_rules ∧ process_rules raw = Ok rules.
Proof.
  revert loaded. induction time_rules as [| [sym raw] rest IH]; intros loaded Hp Hin.
  - inversion Hp; subst. by apply elem_of_nil in Hin.
  - cbn [_process_time_rules] in Hp. unfold bind in Hp.
    destruct (process_rules raw) as [rules' |] eqn:Hraw; [| done].
    destruct (_process_time_rules rest) as [rest' |] eqn:Hrest; [| done].
    inversion Hp; subst loaded. apply elem_of_cons in Hin as [Heq | Hin].
    + inversion Heq; subst. exists raw. split; [apply list_elem_of_here | done].
    + destruct (IH rest' eq_refl Hin) as (raw' & ? & ?).
      exists raw'. split; [by apply list_elem_of_further | done].
Qed.

Lemma process_rule_params_offset rule_params r :
  process_rule_params rule_params = Ok r →
  to_hhmmss (total_seconds (min_interval (TickSec r) (QuoteSec r)) (Beg r))
  = Ok (BegOffset r).
Proof.
  unfold process_rule_params, bind, item. intros H.
  repeat match type of H with
         | context [?l !! ?k] => destruct (l !! k)
         end; try done.
  match type of H with
  | context [to_hhmmss ?t] => destruct (to_hhmmss t) as [off |] eqn:Hoff; [| done]
  end.
  by inversion H; subst.
Qed.

(** Every rule of a loaded table carries the offset computed from its own
    fields. *)
Lemma loaded_rule_offset time_rules loaded symbol rules i r :
  _process_time_rules time_rules = Ok loaded →
  (symbol, rules) ∈ loaded → rules !! i = Some r →
  to_hhmmss (total_seconds (min_interval (TickSec r) (QuoteSec r)) (Beg r))
  = Ok (BegOffset r).
Proof.
  intros Hload Hin Hi.
  destruct (process_time_rules_elem _ _ _ _ Hload Hin) as (raw & _ & Hraw).
  destruct (process_rules_lookup _ _ _ _ Hraw Hi) as (rule_params & _ & Hrule).
  by eapply process_rule_params_offset.
Qed.

Lemma loaded_rule_offset_nonneg time_rules loaded symbol rules i r :
  _process_time_rules time_rules = Ok loaded →
  (symbol, rules) ∈ loaded → rules !! i = Some r → 0 <= Beg r →
  BegOffset r
  = Clock.of_seconds (Clock.seconds_of (Beg r) + min_interval (TickSec r) (QuoteSec r)).
Proof.
  intros Hload Hin Hi Hb.
  pose proof (loaded_rule_offset _ _ _ _ _ _ Hload Hin Hi) as Hoff.
  pose proof (min_interval_range (TickSec r) (QuoteSec r)) as Hm.
  rewrite to_hhmmss_nonneg in Hoff by (apply total_seconds_nonneg; lia).
  inversion Hoff as [Heq]. f_equal. unfold total_seconds, Clock.seconds_of. lia.
Qed.

Lemma seconds_of_nonneg t : 0 <= t → 0 <= Clock.seconds_of t.
Proof. intros Ht. apply (total_seconds_nonneg 0 t); lia. Qed.

Lemma valid_nonneg t : Clock.valid t → 0 <= t.
Proof.
  intros [[Hh _] _]. destruct (Z.lt_ge_cases t 0) as [Hneg |]; [| done].
  assert (t / 10000 < 0) by (apply Z.div_lt_upper_bound; lia). lia.
Qed.

Lemma valid_seconds_range t : Clock.valid t → 0 <= Clock.seconds_of t < 86400.
Proof.
  intros Hv. pose proof (valid_nonneg t Hv) as Ht. destruct Hv as ([Hh Hh'] & Hm & Hs).
  pose proof (Z.mod_pos_bound (t / 100) 100 ltac:(lia)).
  pose proof (Z.mod_pos_bound t 100 ltac:(lia)).
  unfold Clock.seconds_of. lia.
Qed.

(** C1, as the code has it: for every rule of a loaded table whose
    [Beg] is a non-negative HHMMSS integer, [BegOffset] is [Beg] moved
    forward, in seconds, by the least threshold lying strictly between 0
    and 86400 among [TickSec] and [QuoteSec], and re-encoded as
    hours*10000 + minutes*100 + seconds; when no threshold lies in that
    range, in particular when both are 0, the shift is 0 and a valid [Beg]
    is returned unchanged. *)
Theorem begin_offset_least_usable_threshold time_rules loaded symbol rules i r :
  _process_time_rules time_rules = Ok loaded →
  (symbol, rules) ∈ loaded → rules !! i = Some r → 0 <= Beg r →
  ∃ m, Clock.least_usable m (TickSec r) (QuoteSec r)
       ∧ BegOffset r = Clock.of_seconds (Clock.seconds_of (Beg r) + m)
       ∧ Clock.seconds_of (BegOffset r) = Clock.seconds_of (Beg r) + m
       ∧ (TickSec r = 0 → QuoteSec r = 0 → m = 0)
       ∧ (m = 0 → Clock.valid (Beg r) → BegOffset r = Beg r).
Proof.
  intros Hload Hin Hi Hb.
  pose proof (loaded_rule_offset_nonneg _ _ _ _ _ _ Hload Hin Hi Hb) as Hoff.
  pose proof (min_interval_range (TickSec r) (QuoteSec r)) as Hm.
  pose proof (seconds_of_nonneg (Beg r) Hb) as Hs.
  exists (min_interval (TickSec r) (QuoteSec r)).
  split; [apply min_interval_least_usable |].
  split; [exact Hoff |].
  split; [rewrite Hoff; apply seconds_of_of_seconds; lia |].
  split.
  - intros -> ->. reflexivity.
  - intros Hz [_ [Hmin Hsec]]. rewrite Hoff, Hz, Z.add_0_r.
    by apply of_seconds_seconds_of.
Qed.

Lemma begin_offset_least_usable_threshold_witness :
  ∃ m, Clock.least_usable m 60 0
       ∧ 84600 = Clock.of_seconds (Clock.seconds_of 84500 + m)
       ∧ Clock.seconds_of 84600 = Clock.seconds_of 84500 + m
       ∧ ((60 : Z) = 0 → (0 : Z) = 0 → m = 0)
       ∧ (m = 0 → Clock.valid 84500 → (84600 : Z) = 84500).
Proof.
  apply (begin_offset_least_usable_threshold
           Samples.day_raw [("TXF", [Samples.day_rule])] "TXF" [Samples.day_rule]
           0%nat Samples.day_rule).
  - vm_compute. reflexivity.
  - apply list_elem_of_here.
  - reflexivity.
  - vm_compute. discriminate.
Defined.

(** C1 as stated fails: a nonzero threshold of 90000 seconds is not
    applied, under either reading of the encoding. *)
Lemma begin_offset_ignores_long_threshold :
  _process_time_rules Samples.long_raw = Ok [("TXF", [Samples.long_rule])]
  ∧ Clock.spec_min_nonzero (TickSec Samples.long_rule) (QuoteSec Samples.long_rule) = 90000
  ∧ BegOffset Samples.long_rule = 0
  ∧ Clock.of_seconds (Clock.seconds_of (Beg Samples.long_rule) + 90000) = 250000
  ∧ Clock.spec_of_seconds_rolling (Clock.seconds_of (Beg Samples.long_rule) + 90000) = 10000
  ∧ BegOffset Samples.long_rule
    ≠ Clock.of_seconds
        (Clock.seconds_of (Beg Samples.long_rule)
         + Clock.spec_min_nonzero (TickSec Samples.long_rule) (QuoteSec Samples.long_rule))
  ∧ BegOffset Samples.long_rule
    ≠ Clock.spec_of_seconds_rolling
        (Clock.seconds_of (Beg Samples.long_rule)
         + Clock.spec_min_nonzero (TickSec Samples.long_rule) (QuoteSec Samples.long_rule)).
Proof. repeat split; try (vm_compute; reflexivity); vm_compute; discriminate. Qed.

(** C2, as the code has it: for every rule of a loaded table whose [Beg]
    is a valid wall-clock time, [BegOffset] has minute and second fields
    below 60 and an hour field between 0 and 47; nothing rolls over at
    24:00:00, so [BegOffset] is a wall-clock time (at most 235959) exactly
    when [Beg] plus the applied threshold falls before midnight. *)
Theorem begin_offset_hour_not_reduced time_rules loaded symbol rules i r :
  _process_time_rules time_rules = Ok loaded →
  (symbol, rules) ∈ loaded → rules !! i = Some r → Clock.valid (Beg r) →
  0 <= BegOffset r / 10000 < 48
  ∧ 0 <= (BegOffset r / 100) mod 100 < 60
  ∧ 0 <= BegOffset r mod 100 < 60
  ∧ (Clock.valid (BegOffset r)
     ↔ Clock.seconds_of (Beg r) + min_interval (TickSec r) (QuoteSec r) < 86400)
  ∧ (BegOffset r <= 235959
     ↔ Clock.seconds_of (Beg r) + min_interval (TickSec r) (QuoteSec r) < 86400).
Proof.
  intros Hload Hin Hi Hv.
  pose proof (valid_nonneg _ Hv) as Hb.
  pose proof (loaded_rule_offset_nonneg _ _ _ _ _ _ Hload Hin Hi Hb) as Hoff.
  pose proof (min_interval_range (TickSec r) (QuoteSec r)) as Hm.
  pose proof (valid_seconds_range _ Hv) as Hs.
  set (total := Clock.seconds_of (Beg r) + min_interval (TickSec r) (QuoteSec r)) in *.
  assert (Ht : 0 <= total < 172800) by lia.
  destruct (of_seconds_fields total ltac:(lia)) as (E1 & E2 & E3).
  rewrite <- Hoff in E1, E2, E3.
  pose proof (Z.mod_pos_bound (total / 60) 60 ltac:(lia)).
  pose proof (Z.mod_pos_bound total 60 ltac:(lia)).
  assert (Hh : 0 <= total / 3600 < 48).
  { split; [apply Z.div_pos; lia | apply Z.div_lt_upper_bound; lia]. }
  assert (Hday : total / 3600 < 24 ↔ total < 86400).
  { split; intros Hlt.
    - destruct (Z.lt_ge_cases total 86400) as [| Hge]; [done |].
      assert (24 <= total / 3600) by (apply Z.div_le_lower_bound; lia). lia.
    - apply Z.div_lt_upper_bound; lia. }
  unfold Clock.valid. rewrite E1, E2, E3.
  repeat split; try lia.
  - intros Hle. apply Hday.
    destruct (Z.lt_ge_cases (total / 3600) 24) as [| Hge]; [done |].
    assert (240000 <= BegOffset r); [| lia].
    rewrite Hoff. unfold Clock.of_seconds. lia.
  - intros Hlt. rewrite Hoff. unfold Clock.of_seconds. lia.
Qed.

Lemma begin_offset_hour_not_reduced_witness :
  0 <= 84600 / 10000 < 48
  ∧ 0 <= (84600 / 100) mod 100 < 60
  ∧ 0 <= 84600 mod 100 < 60
  ∧ (Clock.valid 84600 ↔ Clock.seconds_of 84500 + min_interval 60 0 < 86400)
  ∧ (84600 <= 235959 ↔ Clock.seconds_of 84500 + min_interval 60 0 < 86400).
Proof.
  apply (begin_offset_hour_not_reduced
           Samples.day_raw [("TXF", [Samples.day_rule])] "TXF" [Samples.day_rule]
           0%nat Samples.day_rule).
  - vm_compute. reflexivity.
  - apply list_elem_of_here.
  - reflexivity.
  - unfold Clock.valid. vm_compute. repeat split; discriminate.
Defined.

(** C2 as stated fails: a window opening at 23:59:30 with a 60 second
    threshold gets the offset 240030, above 235959 and not rolled to 30. *)
Lemma begin_offset_past_midnight :
  _process_time_rules Samples.late_raw = Ok [("TXF", [Samples.late_rule])]
  ∧ Clock.valid (Beg Samples.late_rule)
  ∧ BegOffset Samples.late_rule = 240030
  ∧ ¬ (BegOffset Samples.late_rule <= 235959)
  ∧ Clock.spec_of_seconds_rolling
      (Clock.seconds_of (Beg Samples.late_rule)
       + min_interval (TickSec Samples.late_rule) (QuoteSec Samples.late_rule)) = 30.
Proof.
  split; [vm_compute; reflexivity |].
  split; [unfold Clock.valid; vm_compute; repeat split; discriminate |].
  split; [reflexivity |].
  split; [vm_compute; intros H; apply H; reflexivity | vm_compute; reflexivity].
Qed.

End begin_offset.

(** ** Weekdays ([get_weekday_bitmap], [get_matching_rules]) *)

Section weekdays.
Import TQAlert.

Lemma digit_pow10 j k :
  0 <= j → 0 <= k → Digits.digit (10 ^ j) k = if k =? j then 1 else 0.
Proof.
  intros Hj Hk. unfold Digits.digit.
  destruct (Z.eqb_spec k j) as [-> | Hne].
  - rewrite Z.div_same by (apply Z.pow_nonzero; lia). reflexivity.
  - destruct (Z.lt_ge_cases j k) as [Hlt | Hge].
    + rewrite Z.div_small; [reflexivity |].
      split; [apply Z.pow_nonneg; lia | apply Z.pow_lt_mono_r; lia].
    + replace j with ((j - k - 1) + 1 + k) by lia.
      rewrite Z.pow_add_r, Z.div_mul by (try apply Z.pow_nonzero; lia).
      rewrite Z.pow_add_r by lia. change (10 ^ 1) with 10.
      apply Z.mod_mul. lia.
Qed.

Lemma weekday_bitmap_nonzero weekday : 1 <= weekday <= 7 → get_weekday_bitmap weekday ≠ 0.
Proof. intros Hw. unfold get_weekday_bitmap. apply Z.pow_nonzero; lia. Qed.

Lemma weekday_matches_digit rule weekday :
  1 <= weekday <= 7 → 0 <= WeekVal rule →
  weekday_matches rule (get_weekday_bitmap weekday)
  = Ok (Digits.digit (WeekVal rule) (7 - weekday) =? 1).
Proof.
  intros Hw Hmask. unfold weekday_matches, int_truediv, bind.
  pose proof (weekday_bitmap_nonzero weekday Hw) as Hnz.
  destruct (Z.eqb_spec (get_weekday_bitmap weekday) 0); [done |].
  rewrite Z.quot_div_nonneg; [reflexivity | done |].
  unfold get_weekday_bitmap. apply Z.pow_pos_nonneg; lia.
Qed.

(** What the inner loop collects, for a divisor that is not zero. *)
Lemma matching_of_symbol_spec symbol start rules bitmap :
  bitmap ≠ 0 →
  ∃ found, matching_of_symbol symbol start rules bitmap = Ok found
    ∧ ∀ m, m ∈ found ↔
        Symbol m = symbol
        ∧ ∃ i, RuleIdx m = (start + i)%nat ∧ rules !! i = Some (Rule m)
               ∧ weekday_matches (Rule m) bitmap = Ok true.
Proof.
  intros Hnz. revert start. induction rules as [| rule rest IH]; intros start.
  - exists []. split; [done |]. intros m. split.
    + by intros ?%elem_of_nil.
    + by intros (_ & i & _ & ? & _).
  - destruct (IH (S start)) as (found & Hfound & Hspec).
    cbn [matching_of_symbol]. rewrite Hfound.
    assert (Hhit : ∃ hit, weekday_matches rule bitmap = Ok hit).
    { unfold weekday_matches, int_truediv, bind.
      destruct (Z.eqb_spec bitmap 0); [done | eauto]. }
    destruct Hhit as (hit & Hhit). rewrite Hhit. cbn [bind].
    eexists. split; [reflexivity |]. intros m. split.
    + intros Hm.
      assert (Hcase : (hit = true ∧ m = {| Symbol := symbol; RuleIdx := start; Rule := rule |})
                      ∨ m ∈ found).
      { destruct hit; [| by right].
        apply elem_of_cons in Hm as [-> | ?]; [by left | by right]. }
      destruct Hcase as [[-> ->] | Hm'].
      * split; [done |]. exists 0%nat. cbn. split; [lia | done].
      * apply Hspec in Hm' as (Hs & i & Hi & Hl & Hw).
        split; [done |]. exists (S i). split; [lia | done].
    + intros (Hs & i & Hi & Hl & Hw). destruct i as [| i].
      * cbn in Hl. inversion Hl; subst rule. rewrite Hw in Hhit.
        inversion Hhit; subst hit.
        replace m with {| Symbol := symbol; RuleIdx := start; Rule := Rule m |}
          by (destruct m; cbn in *; subst; f_equal; lia).
        apply list_elem_of_here.
      * assert (m ∈ found).
        { apply Hspec. split; [done |]. exists i. split; [lia | done]. }
        destruct hit; [by apply list_elem_of_further | done].
Qed.

(** [get_matching_rules] returns exactly the rules of the table whose
    weekday test succeeds, each with its symbol and its index. *)
Lemma get_matching_rules_spec time_rules bitmap :
  bitmap ≠ 0 →
  ∃ found, get_matching_rules time_rules bitmap = Ok found
    ∧ ∀ m, m ∈ found ↔
        ∃ rules, (Symbol m, rules) ∈ time_rules
                 ∧ rules !! RuleIdx m = Some (Rule m)
                 ∧ weekday_matches (Rule m) bitmap = Ok true.
Proof.
  intros Hnz. induction time_rules as [| [symbol rules] rest IH].
  - exists []. split; [done |]. intros m. split.
    + by intros ?%elem_of_nil.
    + by intros (? & ?%elem_of_nil & _).
  - destruct IH as (found_rest & Hrest & Hspec_rest).
    destruct (matching_of_symbol_spec symbol 0 rules bitmap Hnz) as (here & Hhere & Hspec).
    cbn [get_matching_rules]. rewrite Hhere, Hrest. cbn [bind].
    eexists. split; [reflexivity |]. intros m.
    rewrite elem_of_app, Hspec, Hspec_rest. split.
    + intros [(Hs & i & Hi & Hl & Hw) | (rules' & Hin & Hl & Hw)].
      * exists rules. rewrite Hs, Hi. split; [apply list_elem_of_here | done].
      * exists rules'. split; [by apply list_elem_of_further | done].
    + intros (rules' & Hin & Hl & Hw). apply elem_of_cons in Hin as [Heq | Hin].
      * inversion Heq; subst. left. split; [done |]. by exists (RuleIdx m).
      * right. by exists rules'.
Qed.

(** C4: for an ISO weekday [w] (1 Monday .. 7 Sunday) the bitmap is below
    [10^7], its digit of weight [10^(7-w)] is 1 and every other digit is
    0; a rule with a seven-digit mask passes the weekday test exactly when
    the digit of its mask at that position is 1, and the matching rules of
    a table of such rules are exactly those. *)
Theorem weekday_bitmap_single_digit (w : Z) (time_rules : list (string * list rule_dict)) :
  1 <= w <= 7 →
  (∀ symbol rules rule, (symbol, rules) ∈ time_rules → rule ∈ rules →
     0 <= WeekVal rule < 10 ^ 7) →
  0 < get_weekday_bitmap w < 10 ^ 7
  ∧ (∀ k, 0 <= k → Digits.digit (get_weekday_bitmap w) k = if k =? 7 - w then 1 else 0)
  ∧ (∀ rule, 0 <= WeekVal rule < 10 ^ 7 →
       weekday_matches rule (get_weekday_bitmap w)
       = Ok (Digits.digit (WeekVal rule) (7 - w) =? 1))
  ∧ ∃ found, get_matching_rules time_rules (get_weekday_bitmap w) = Ok found
      ∧ ∀ m, m ∈ found ↔
          ∃ rules, (Symbol m, rules) ∈ time_rules
                   ∧ rules !! RuleIdx m = Some (Rule m)
                   ∧ Digits.digit (WeekVal (Rule m)) (7 - w) = 1.
Proof.
  intros Hw Hmasks. split; [| split; [| split]].
  - unfold get_weekday_bitmap. split; [apply Z.pow_pos_nonneg; lia |].
    apply Z.pow_lt_mono_r; lia.
  - intros k Hk. unfold get_weekday_bitmap. apply digit_pow10; lia.
  - intros rule Hmask. apply weekday_matches_digit; lia.
  - destruct (get_matching_rules_spec time_rules (get_weekday_bitmap w)
                (weekday_bitmap_nonzero w Hw)) as (found & Hfound & Hspec).
    exists found. split; [done |]. intros m. rewrite Hspec.
    split; intros (rules & Hin & Hl & Hhit); exists rules; (split; [done |]);
      (split; [done |]);
      assert (Hmask : 0 <= WeekVal (Rule m))
        by (apply (Hmasks (Symbol m) rules (Rule m) Hin);
            by apply list_elem_of_lookup_2 in Hl);
      rewrite weekday_matches_digit in * by done.
    + inversion Hhit as [Heq]. by apply Z.eqb_eq.
    + f_equal. by apply Z.eqb_eq.
Qed.

Lemma weekday_bitmap_single_digit_witness :
  0 < get_weekday_bitmap 1 < 10 ^ 7
  ∧ (∀ k, 0 <= k → Digits.digit (get_weekday_bitmap 1) k = if k =? 7 - 1 then 1 else 0)
  ∧ (∀ rule, 0 <= WeekVal rule < 10 ^ 7 →
       weekday_matches rule (get_weekday_bitmap 1)
       = Ok (Digits.digit (WeekVal rule) (7 - 1) =? 1))
  ∧ ∃ found, get_matching_rules Samples.day_table (get_weekday_bitmap 1) = Ok found
      ∧ ∀ m, m ∈ found ↔
          ∃ rules, (Symbol m, rules) ∈ Samples.day_table
                   ∧ rules !! RuleIdx m = Some (Rule m)
                   ∧ Digits.digit (WeekVal (Rule m)) (7 - 1) = 1.
Proof.
  apply (weekday_bitmap_single_digit 1 Samples.day_table).
  - lia.
  - intros symbol rules rule Hin Hrule.
    apply list_elem_of_singleton in Hin. inversion Hin; subst.
    apply list_elem_of_singleton in Hrule. subst. cbn. lia.
Defined.

Example monday_and_sunday :
  get_weekday_bitmap 1 = 1000000 ∧ get_weekday_bitmap 7 = 1
  ∧ get_matching_rules Samples.day_table (get_weekday_bitmap 1)
    = Ok [{| Symbol := "TXF"; RuleIdx := 0; Rule := Samples.day_rule |}]
  ∧ get_matching_rules Samples.day_table (get_weekday_bitmap 7) = Ok [].
Proof. repeat split; reflexivity. Qed.

End weekdays.

(** ** The monitoring window ([is_within_time_range]) *)

Section window.
Import TQAlert.

(** C7: the window check is the plain comparison [begin <= now < end] on
    the raw integers, and nothing is unwrapped: with [end] not above
    [begin] it is false for every [now]. *)
Theorem window_is_plain_comparison (now begin_time end_time : Z) :
  (is_within_time_range now begin_time end_time = true ↔ begin_time <= now < end_time)
  ∧ (is_within_time_range now begin_time end_time = false
     ↔ now < begin_time ∨ end_time <= now)
  ∧ (end_time <= begin_time → is_within_time_range now begin_time end_time = false).
Proof.
  unfold is_within_time_range.
  destruct (Z.leb_spec begin_time now), (Z.ltb_spec now end_time); cbn [andb];
    repeat split; intros; try done; try lia.
Qed.

Example overnight_window_never_open :
  is_within_time_range 230000 220000 50000 = false
  ∧ is_within_time_range 10000 220000 50000 = false.
Proof. split; reflexivity. Qed.

End window.

(** ** The freshness probe ([read_last_timestamp]) *)

Section probe.
Import TQAlert.

Lemma no_space_str_nat n : Digits.no_space (Py.str_nat n) = true.
Proof. apply all_digits_no_space, all_digits_str_nat. Qed.

Lemma no_space_str n : Digits.no_space (Py.str n) = true.
Proof.
  unfold Py.str. destruct (n <? 0); [| apply no_space_str_nat].
  cbn [Digits.no_space]. rewrite no_space_str_nat. reflexivity.
Qed.

Lemma int_str n : Py.int (Py.str n) = Ok n.
Proof.
  unfold Py.str. destruct (Z.ltb_spec n 0) as [Hneg | Hpos].
  - rewrite int_minus_all_digits
      by (apply all_digits_str_nat || apply str_nat_nonempty).
    rewrite value_str_nat by lia. f_equal. lia.
  - rewrite int_all_digits.
    + by rewrite value_str_nat.
    + apply all_digits_str_nat.
    + apply str_nat_nonempty.
Qed.

Lemma not_space_not_newline c :
  Py.is_space c = false → Ascii.eqb c "010" = false ∧ Ascii.eqb c "013" = false.
Proof. each_char c; vm_compute; intros H; try discriminate H; done. Qed.

Lemma readline_first_line s rest :
  Digits.no_space s = true →
  Py.readline (s +:+ String "010" rest) = s +:+ String "010" "".
Proof.
  induction s as [| c s IH]; cbn [Digits.no_space]; [done |].
  intros [Hc Hs]%andb_prop. apply negb_true_iff in Hc.
  destruct (not_space_not_newline c Hc) as [Hlf Hcr].
  change (String c s +:+ String "010" rest) with (String c (s +:+ String "010" rest)).
  cbn [Py.readline]. rewrite Hlf, Hcr, IH by done. reflexivity.
Qed.

Lemma readline_no_newline s : Digits.no_space s = true → Py.readline s = s.
Proof.
  induction s as [| c s IH]; cbn [Digits.no_space]; [done |].
  intros [Hc Hs]%andb_prop. apply negb_true_iff in Hc.
  destruct (not_space_not_newline c Hc) as [Hlf Hcr].
  cbn [Py.readline]. by rewrite Hlf, Hcr, IH.
Qed.

Lemma rstrip_newline s :
  Digits.no_space s = true → Py.rstrip_with Py.is_space (s +:+ String "010" "") = s.
Proof.
  induction s as [| c s IH]; cbn [Digits.no_space]; [done |].
  intros [Hc Hs]%andb_prop. apply negb_true_iff in Hc.
  rewrite append_cons. cbn [Py.rstrip_with]. rewrite IH by done.
  destruct s; [by rewrite Hc | done].
Qed.

Lemma strip_newline s :
  Digits.no_space s = true → Py.strip (s +:+ String "010" "") = s.
Proof.
  intros Hs. unfold Py.strip, Py.strip_with. destruct s as [| c s]; [done |].
  rewrite append_cons, lstrip_with_head; [by apply (rstrip_newline (String c s)) | done |].
  cbn [Digits.no_space] in Hs. apply andb_prop in Hs as [Hc _].
  by apply negb_true_iff in Hc.
Qed.

(** The handler of the probe catches whatever opening, reading and parsing
    can raise. *)
Lemma read_last_timestamp_total fs symbol data_type :
  ∃ v, read_last_timestamp fs symbol data_type = Ok v.
Proof.
  unfold read_last_timestamp, open_readline, try_except, bind.
  destruct (fs !! marker_path symbol data_type) as [[[contents | |] |] |]; cbn; eauto.
  unfold Py.int. destruct (Py.int_signed _); cbn; eauto.
Qed.

(** C9: the probe never raises; it returns 0 when the marker is absent,
    not a regular file, unreadable, undecodable or not an integer, and the
    stored integer when the first line of the marker, stripped, is an integer
    literal of at most 4300 characters, in particular the decimal form of an
    integer within the interpreter's digit limit, with or without an end of
    line after it. *)
Theorem probe_zero_or_stored_value (fs : gmap string node) (symbol data_type : string) :
  (∃ v, read_last_timestamp fs symbol data_type = Ok v)
  ∧ (Probe.unusable fs (marker_path symbol data_type) →
     read_last_timestamp fs symbol data_type = Ok 0)
  ∧ (∀ contents n,
       fs !! marker_path symbol data_type = Some (RegularFile (Text contents)) →
       Limits.short (Py.strip (Py.readline contents)) →
       Py.int (Py.strip (Py.readline contents)) = Ok n →
       read_last_timestamp fs symbol data_type = Ok n)
  ∧ (∀ n rest,
       Limits.printable n →
       fs !! marker_path symbol data_type
       = Some (RegularFile (Text (Py.str n +:+ String "010" rest))) →
       read_last_timestamp fs symbol data_type = Ok n)
  ∧ (∀ n,
       Limits.printable n →
       fs !! marker_path symbol data_type = Some (RegularFile (Text (Py.str n))) →
       read_last_timestamp fs symbol data_type = Ok n).
Proof.
  split; [apply read_last_timestamp_total |].
  assert (Hparsed : ∀ contents n,
    fs !! marker_path symbol data_type = Some (RegularFile (Text contents)) →
    Py.int (Py.strip (Py.readline contents)) = Ok n →
    read_last_timestamp fs symbol data_type = Ok n).
  { intros contents n Hfile Hint.
    unfold read_last_timestamp, open_readline. rewrite Hfile. cbn [bind].
    by rewrite Hint. }
  split; [| split; [intros contents n Hfile _; by apply Hparsed | split]].
  - unfold Probe.unusable, read_last_timestamp, open_readline.
    destruct (fs !! marker_path symbol data_type) as [[[contents | |] |] |];
      cbn [bind try_except probe_handles]; try done.
    intros [e He]. rewrite He. cbn.
    unfold Py.int in He. destruct (Py.int_signed _); [done |].
    by inversion He.
  - intros n rest _ Hfile. apply (Hparsed _ n Hfile).
    rewrite readline_first_line, strip_newline by apply no_space_str.
    apply int_str.
  - intros n _ Hfile. apply (Hparsed _ n Hfile).
    rewrite readline_no_newline, strip_no_space by apply no_space_str.
    apply int_str.
Qed.

Example probe_examples :
  read_last_timestamp Samples.markers "TXF" "LastQ" = Ok 1000
  ∧ read_last_timestamp Samples.markers "TXF" "LastT" = Ok 1010
  ∧ read_last_timestamp Samples.markers "MXF" "LastT" = Ok 0
  ∧ read_last_timestamp (<[marker_path "TXF" "LastT" := RegularFile (Text "n/a")]> ∅)
      "TXF" "LastT" = Ok 0
  ∧ read_last_timestamp (<[marker_path "TXF" "LastT" := RegularFile Unreadable]> ∅)
      "TXF" "LastT" = Ok 0
  ∧ read_last_timestamp (<[marker_path "TXF" "LastT" := Directory]> ∅)
      "TXF" "LastT" = Ok 0.
Proof. repeat split; vm_compute; reflexivity. Qed.

End probe.

(** ** Throttle and dispatch ([should_skip_symbol], [monitor_symbols]) *)

Section throttle.
Import TQAlert.

Lemma check_symbol_alerts_total fs rule now lat :
  ∃ alert, check_symbol_alerts fs rule now lat = Ok alert.
Proof.
  unfold check_symbol_alerts.
  destruct (read_last_timestamp_total fs (Symbol rule) "LastQ") as (q & ->).
  destruct (read_last_timestamp_total fs (Symbol rule) "LastT") as (k & ->).
  destruct (QuoteSec (Rule rule) >? 0), (TickSec (Rule rule) >? 0); cbn [bind]; eauto.
Qed.

Lemma monitor_rule_total fs cmds clock now st rule :
  ∃ st', monitor_rule fs cmds clock now st rule = Ok st'.
Proof.
  unfold monitor_rule.
  destruct (negb _); [eauto |].
  destruct (should_skip_symbol _ _ _ _) as [[] reason]; [eauto |].
  destruct (check_symbol_alerts_total fs rule now (last_alert_times st))
    as ([header body] & ->).
  cbn [bind]. destruct (truthy header); eauto.
Qed.

(** One rule either leaves the state alone or records the alert and
    dispatches it. *)
Lemma monitor_rule_cases fs cmds clock now st rule st' :
  monitor_rule fs cmds clock now st rule = Ok st' →
  st' = st
  ∨ ∃ header body,
      truthy header = true
      ∧ is_within_time_range clock (BegOffset (Rule rule)) (End' (Rule rule)) = true
      ∧ (should_skip_symbol fs (Symbol rule) (last_alert_times st) now).1 = false
      ∧ check_symbol_alerts fs rule now (last_alert_times st) = Ok (header, body)
      ∧ last_alert_times st' = <[Symbol rule := now]> (last_alert_times st)
      ∧ trace st' = (trace st ++ Trace.dispatch (Symbol rule) now header body cmds)%list.
Proof.
  unfold monitor_rule. intros H.
  destruct (is_within_time_range _ _ _) eqn:Hwin; cbn [negb] in H;
    [| left; by inversion H].
  destruct (should_skip_symbol _ _ _ _) as [[] reason] eqn:Hskip;
    [left; by inversion H |].
  destruct (check_symbol_alerts _ _ _ _) as [[header body] |] eqn:Hcheck; [| done].
  cbn [bind] in H. destruct (truthy header) eqn:Hh; [| left; by inversion H].
  right. exists header, body. inversion H; subst st'. cbn. done.
Qed.

Lemma alert_count_app t1 t2 :
  Trace.alert_count (t1 ++ t2)%list = (Trace.alert_count t1 + Trace.alert_count t2)%nat.
Proof. unfold Trace.alert_count. by rewrite filter_app, length_app. Qed.

Lemma command_count_app t1 t2 :
  Trace.command_count (t1 ++ t2)%list
  = (Trace.command_count t1 + Trace.command_count t2)%nat.
Proof. unfold Trace.command_count. by rewrite filter_app, length_app. Qed.

Lemma execute_alert_command_is_command cmd header body :
  Trace.is_command (execute_alert_command cmd header body) = true
  ∧ Trace.is_alert (execute_alert_command cmd header body) = false.
Proof. unfold execute_alert_command. by destruct (Py.startswith _ _). Qed.

(** A dispatch holds one alert and one event per configured command. *)
Lemma dispatch_counts symbol now header body cmds :
  Trace.alert_count (Trace.dispatch symbol now header body cmds) = 1%nat
  ∧ Trace.command_count (Trace.dispatch symbol now header body cmds) = length cmds.
Proof.
  unfold Trace.dispatch, Trace.alert_count, Trace.command_count.
  rewrite !filter_cons. cbn [Trace.is_alert Trace.is_command].
  repeat case_decide; try done. cbn [length].
  induction cmds as [| cmd cmds [IHa IHc]]; [done |].
  cbn [map]. rewrite !filter_cons.
  destruct (execute_alert_command_is_command cmd header body) as [-> ->].
  repeat case_decide; try done. cbn [length]. split; [lia | lia].
Qed.

(** A symbol alerted less than [MIN_ALERT_INTERVAL] seconds ago is
    skipped, whatever the files say. *)
Lemma recent_alert_skipped fs symbol lat last now :
  lat !! symbol = Some last → now < last + MIN_ALERT_INTERVAL →
  (should_skip_symbol fs symbol lat now).1 = true.
Proof.
  intros Hl Hnow. unfold should_skip_symbol.
  destruct (isfile fs (skip_file symbol)); [done |].
  rewrite Hl. destruct (Z.ltb_spec now (last + MIN_ALERT_INTERVAL)); [done | lia].
Qed.

Lemma skipped_rule_unchanged fs cmds clock now st rule :
  (should_skip_symbol fs (Symbol rule) (last_alert_times st) now).1 = true →
  monitor_rule fs cmds clock now st rule = Ok st.
Proof.
  intros Hskip. unfold monitor_rule.
  destruct (negb _); [done |].
  destruct (should_skip_symbol _ _ _ _) as [[] reason]; [done | done].
Qed.

Lemma alerts_for_app symbol t1 t2 :
  Trace.alerts_for symbol (t1 ++ t2)%list
  = (Trace.alerts_for symbol t1 + Trace.alerts_for symbol t2)%nat.
Proof. unfold Trace.alerts_for. by rewrite filter_app, length_app. Qed.

Lemma alerts_for_commands symbol header body cmds :
  Trace.alerts_for symbol (map (fun cmd => execute_alert_command cmd header body) cmds)
  = 0%nat.
Proof.
  unfold Trace.alerts_for. induction cmds as [| cmd cmds IH]; [done |].
  cbn [map]. rewrite filter_cons.
  assert (Hcmd : Trace.is_alert_for symbol (execute_alert_command cmd header body) = false)
    by (unfold execute_alert_command; by destruct (Py.startswith _ _)).
  rewrite Hcmd. by case_decide.
Qed.

Lemma alerts_for_dispatch symbol rule_symbol now header body cmds :
  Trace.alerts_for symbol (Trace.dispatch rule_symbol now header body cmds)
  = if String.eqb rule_symbol symbol then 1%nat else 0%nat.
Proof.
  pose proof (alerts_for_commands symbol header body cmds) as Hcmds.
  unfold Trace.dispatch, Trace.alerts_for in *.
  rewrite !filter_cons. cbn [Trace.is_alert_for].
  destruct (String.eqb rule_symbol symbol); repeat case_decide; try done;
    cbn [length]; lia.
Qed.

(** X18: one pass over the matching rules never raises, sends at most one
    alert per symbol, none for a symbol alerted less than
    [MIN_ALERT_INTERVAL] seconds before, and none for a muted symbol, whose
    entry it keeps. *)
Lemma pass_one_alert_per_symbol fs cmds clock now rules :
  ∀ st, ∃ st' new,
    monitor_rules fs cmds clock now st rules = Ok st'
    ∧ trace st' = (trace st ++ new)%list
    ∧ ∀ symbol,
        (Trace.alerts_for symbol new <= 1)%nat
        ∧ (∀ last, last_alert_times st !! symbol = Some last →
             now < last + MIN_ALERT_INTERVAL → Trace.alerts_for symbol new = 0%nat)
        ∧ (isfile fs (skip_file symbol) = true →
             Trace.alerts_for symbol new = 0%nat
             ∧ last_alert_times st' !! symbol = last_alert_times st !! symbol).
Proof.
  induction rules as [| rule rest IH]; intros st.
  - exists st, []. cbn [monitor_rules]. rewrite app_nil_r.
    repeat split; intros; try done; cbn; lia.
  - cbn [monitor_rules].
    destruct (monitor_rule_total fs cmds clock now st rule) as (st1 & Hstep).
    rewrite Hstep. cbn [bind].
    destruct (monitor_rule_cases _ _ _ _ _ _ _ Hstep)
      as [-> | (header & body & _ & _ & Hskip & _ & Hlat & Htrace)]; [apply IH |].
    destruct (IH st1) as (st' & new & Hpass & Hnew & Hper).
    exists st', (Trace.dispatch (Symbol rule) now header body cmds ++ new)%list.
    split; [done |].
    split; [by rewrite Hnew, Htrace, app_assoc |].
    intros symbol. destruct (Hper symbol) as (Hle & Hrecent & Hmuted).
    rewrite alerts_for_app, alerts_for_dispatch, Hlat in *.
    destruct (String.eqb_spec (Symbol rule) symbol) as [<- | Hne].
    + assert (Hzero : Trace.alerts_for (Symbol rule) new = 0%nat).
      { apply (Hrecent now); [apply lookup_insert_eq |]. unfold MIN_ALERT_INTERVAL. lia. }
      rewrite Hzero. split; [lia |]. split.
      * intros last Hlast Hsoon.
        by rewrite (recent_alert_skipped fs _ _ _ _ Hlast Hsoon) in Hskip.
      * intros Hfile. unfold should_skip_symbol in Hskip. by rewrite Hfile in Hskip.
    + rewrite lookup_insert_ne in * by done. split; [lia |]. split.
      * intros last Hlast Hsoon. by rewrite (Hrecent last Hlast Hsoon).
      * intros Hfile. destruct (Hmuted Hfile) as [-> ->]. done.
Qed.

(** C10: a symbol with no entry in [last_alert_times] and no skip file is
    not skipped, at any time. *)
Theorem first_alert_never_throttled fs symbol (lat : gmap string Z) now :
  isfile fs (skip_file symbol) = false → lat !! symbol = None →
  should_skip_symbol fs symbol lat now = (false, "").
Proof. intros Hfile Hnone. unfold should_skip_symbol. by rewrite Hfile, Hnone. Qed.

Lemma first_alert_never_throttled_witness :
  should_skip_symbol Samples.markers "TXF" ∅ 0 = (false, "").
Proof.
  apply (first_alert_never_throttled Samples.markers "TXF" ∅ 0).
  - vm_compute. reflexivity.
  - reflexivity.
Defined.

(** C6: when a rule fires at time [t], the entry of its symbol is set to
    [t] ahead of the notification commands, and any evaluation for the same
    symbol at a time [t' < t + MIN_ALERT_INTERVAL] is skipped and changes
    nothing: the two evaluations leave exactly one alert, and one run of the
    command list, in the trace. *)
Theorem throttle_single_dispatch fs fs' cmds clock clock' t t' st rule rule' header body :
  is_within_time_range clock (BegOffset (Rule rule)) (End' (Rule rule)) = true →
  (should_skip_symbol fs (Symbol rule) (last_alert_times st) t).1 = false →
  check_symbol_alerts fs rule t (last_alert_times st) = Ok (header, body) →
  truthy header = true →
  Symbol rule' = Symbol rule →
  t' < t + MIN_ALERT_INTERVAL →
  ∃ st1,
    monitor_rule fs cmds clock t st rule = Ok st1
    ∧ last_alert_times st1 !! Symbol rule = Some t
    ∧ trace st1
      = (trace st
         ++ Recorded (Symbol rule) t :: Alert (Symbol rule) header body
            :: map (fun cmd => execute_alert_command cmd header body) cmds)%list
    ∧ (should_skip_symbol fs' (Symbol rule') (last_alert_times st1) t').1 = true
    ∧ monitor_rule fs' cmds clock' t' st1 rule' = Ok st1
    ∧ Trace.alert_count (trace st1) = S (Trace.alert_count (trace st))
    ∧ Trace.command_count (trace st1)
      = (Trace.command_count (trace st) + length cmds)%nat.
Proof.
  intros Hwin Hskip Hcheck Hh Hsym Hsoon.
  eexists. split.
  { unfold monitor_rule. rewrite Hwin. cbn [negb].
    destruct (should_skip_symbol _ _ _ _) as [[] reason]; [discriminate Hskip |].
    rewrite Hcheck. cbn [bind]. rewrite Hh. reflexivity. }
  cbn [last_alert_times trace].
  assert (Hrec : <[Symbol rule := t]> (last_alert_times st) !! Symbol rule' = Some t)
    by (rewrite Hsym; apply lookup_insert_eq).
  pose proof (recent_alert_skipped fs' _ _ _ _ Hrec Hsoon) as Hskip'.
  split; [apply lookup_insert_eq |]. split; [reflexivity |].
  split; [exact Hskip' |].
  split; [by apply skipped_rule_unchanged |].
  destruct (dispatch_counts (Symbol rule) t header body cmds) as [Ha Hc].
  unfold Trace.dispatch in Ha, Hc.
  rewrite alert_count_app, command_count_app, Ha, Hc. split; lia.
Qed.

(** C8: a rule whose symbol has a skip file is skipped and leaves the
    state, dictionary and trace, as it was; a whole pass leaves the entry of
    such a symbol untouched; and whenever a rule does change the dictionary
    it is by the dispatch of an alert for its symbol. *)
Theorem muted_symbol_state_unchanged fs cmds clock now st rule :
  (isfile fs (skip_file (Symbol rule)) = true →
     (should_skip_symbol fs (Symbol rule) (last_alert_times st) now).1 = true
     ∧ monitor_rule fs cmds clock now st rule = Ok st)
  ∧ (∀ st', monitor_rule fs cmds clock now st rule = Ok st' →
       last_alert_times st' ≠ last_alert_times st →
       ∃ header body,
         truthy header = true
         ∧ last_alert_times st' = <[Symbol rule := now]> (last_alert_times st)
         ∧ trace st'
           = (trace st ++ Trace.dispatch (Symbol rule) now header body cmds)%list).
Proof.
  split.
  - intros Hmuted.
    assert (Hskip : (should_skip_symbol fs (Symbol rule) (last_alert_times st) now).1 = true)
      by (unfold should_skip_symbol; by rewrite Hmuted).
    split; [exact Hskip | by apply skipped_rule_unchanged].
  - intros st' Hstep Hchanged.
    destruct (monitor_rule_cases _ _ _ _ _ _ _ Hstep)
      as [-> | (header & body & Hh & _ & _ & _ & Hlat & Htrace)]; [done |].
    by exists header, body.
Qed.

Lemma muted_symbol_state_unchanged_witness :
  (should_skip_symbol Samples.muted "TXF" ∅ 2000).1 = true
  ∧ monitor_rule Samples.muted ["mail {HEADER} {BODY}"] 100000 2000
      Samples.start Samples.day_match = Ok Samples.start.
Proof.
  apply (muted_symbol_state_unchanged Samples.muted ["mail {HEADER} {BODY}"] 100000 2000
           Samples.start Samples.day_match).
  vm_compute. reflexivity.
Defined.

Example quote_only_stale :
  check_symbol_alerts Samples.markers Samples.both_match 1050 ∅
  = Ok ("No Quote Alert", "TXF has no quote for 30 seconds!")
  ∧ check_symbol_alerts Samples.markers Samples.both_match 1020 ∅ = Ok ("", "").
Proof. split; vm_compute; reflexivity. Qed.

(** Without the skip file the same rule fires. *)
Example unmuted_rule_fires :
  monitor_rule Samples.markers ["mail {HEADER} {BODY}"; "# off {BODY}"] 100000 2000
    Samples.start Samples.day_match
  = Ok {| last_alert_times := {[ "TXF" := 2000 ]};
          trace := [Recorded "TXF" 2000;
                    Alert "TXF" "No Tick Alert" "TXF has no tick for 60 seconds!";
                    Ran "mail No Tick Alert TXF has no tick for 60 seconds!";
                    SkipRun "# off TXF has no tick for 60 seconds!"] |}.
Proof. vm_compute. reflexivity. Qed.

(** C3: with both thresholds positive and both signals stale the result is
    the tick alert; in every case the check returns one pair, and one rule
    adds at most one alert to the trace of a pass. *)
Theorem both_stale_reports_tick fs rule now (lat : gmap string Z) :
  (∀ last_quote last_tick,
     0 < QuoteSec (Rule rule) → 0 < TickSec (Rule rule) →
     read_last_timestamp fs (Symbol rule) "LastQ" = Ok last_quote →
     read_last_timestamp fs (Symbol rule) "LastT" = Ok last_tick →
     last_quote + QuoteSec (Rule rule) < now →
     last_tick + TickSec (Rule rule) < now →
     check_symbol_alerts fs rule now lat
     = Ok ("No Tick Alert",
           Symbol rule +:+ " has no tick for " +:+ Py.str (TickSec (Rule rule))
           +:+ " seconds!"))
  ∧ (∃ alert, check_symbol_alerts fs rule now lat = Ok alert)
  ∧ (∀ cmds clock st,
       ∃ st', monitor_rule fs cmds clock now st rule = Ok st'
              ∧ (Trace.alert_count (trace st') <= S (Trace.alert_count (trace st)))%nat).
Proof.
  split; [| split].
  - intros last_quote last_tick Hq Ht Hlq Hlt Hsq Hst.
    unfold check_symbol_alerts. rewrite Hlq, Hlt.
    destruct (Z.gtb_spec (QuoteSec (Rule rule)) 0); [| lia].
    destruct (Z.gtb_spec (TickSec (Rule rule)) 0); [| lia].
    cbn [bind].
    destruct (Z.gtb_spec now (last_tick + TickSec (Rule rule))); [done | lia].
  - apply check_symbol_alerts_total.
  - intros cmds clock st.
    destruct (monitor_rule_total fs cmds clock now st rule) as (st' & Hstep).
    exists st'. split; [done |].
    destruct (monitor_rule_cases _ _ _ _ _ _ _ Hstep)
      as [-> | (header & body & _ & _ & _ & _ & _ & ->)]; [lia |].
    rewrite alert_count_app.
    destruct (dispatch_counts (Symbol rule) now header body cmds) as [-> _]. lia.
Qed.

Lemma both_stale_reports_tick_witness :
  check_symbol_alerts Samples.markers Samples.both_match 2000 ∅
  = Ok ("No Tick Alert", "TXF has no tick for 60 seconds!").
Proof.
  apply (proj1 (both_stale_reports_tick Samples.markers Samples.both_match 2000 ∅)
           1000 1010).
  - reflexivity.
  - reflexivity.
  - vm_compute. reflexivity.
  - vm_compute. reflexivity.
  - reflexivity.
  - reflexivity.
Defined.

Lemma throttle_single_dispatch_witness :
  ∃ st1,
    monitor_rule Samples.markers ["mail {HEADER} {BODY}"] 100000 2000
      Samples.start Samples.day_match = Ok st1
    ∧ last_alert_times st1 !! "TXF" = Some 2000
    ∧ trace st1
      = [Recorded "TXF" 2000;
         Alert "TXF" "No Tick Alert" "TXF has no tick for 60 seconds!";
         execute_alert_command "mail {HEADER} {BODY}" "No Tick Alert"
           "TXF has no tick for 60 seconds!"]
    ∧ (should_skip_symbol Samples.markers "TXF" (last_alert_times st1) 2029).1 = true
    ∧ monitor_rule Samples.markers ["mail {HEADER} {BODY}"] 100005 2029 st1
        Samples.both_match = Ok st1
    ∧ Trace.alert_count (trace st1) = 1%nat
    ∧ Trace.command_count (trace st1) = 1%nat.
Proof.
  apply (throttle_single_dispatch Samples.markers Samples.markers
           ["mail {HEADER} {BODY}"] 100000 100005 2000 2029
           Samples.start Samples.day_match Samples.both_match
           "No Tick Alert" "TXF has no tick for 60 seconds!").
  - reflexivity.
  - vm_compute. reflexivity.
  - vm_compute. reflexivity.
  - reflexivity.
  - reflexivity.
  - reflexivity.
Defined.

End throttle.

(** ** Escaping of configuration values ([eConf.py]) *)

Section escaping.
Import EConf.

(** Replacing a single character works character by character. *)
Lemma replace_char_cons c new x s :
  Py.replace (String x s) (String c "") new
  = (if Ascii.eqb c x then new else String x "") +:+ Py.replace s (String c "") new.
Proof.
  unfold Py.replace. cbn [Py.replace_from Py.startswith String.length Nat.sub].
  rewrite andb_true_r. by destruct (Ascii.eqb c x).
Qed.

Lemma replace_char_app c new a b :
  Py.replace (a +:+ b) (String c "") new
  = Py.replace a (String c "") new +:+ Py.replace b (String c "") new.
Proof.
  induction a as [| x a IH]; [done |].
  change (String x a +:+ b) with (String x (a +:+ b)).
  rewrite !replace_char_cons, IH. by rewrite append_assoc.
Qed.

(** A character other than the ampersand is copied by the three
    replacements of [unescape_config_value]. *)
Lemma replace_entity_other x rest old new :
  Ascii.eqb "&" x = false →
  Py.replace (String x rest) (String "&" old) new
  = String x (Py.replace rest (String "&" old) new).
Proof. intros Hx. unfold Py.replace. cbn [Py.replace_from Py.startswith]. by rewrite Hx. Qed.

Lemma unescape_other x rest :
  Ascii.eqb "&" x = false →
  unescape_config_value (String x rest) = String x (unescape_config_value rest).
Proof.
  intros Hx. unfold unescape_config_value.
  by rewrite !replace_entity_other.
Qed.

Lemma unescape_bsol rest :
  unescape_config_value ("&bsol;" +:+ rest) = backslash +:+ unescape_config_value rest.
Proof. reflexivity. Qed.

Lemma unescape_quot rest :
  unescape_config_value ("&quot;" +:+ rest) = dquote +:+ unescape_config_value rest.
Proof. reflexivity. Qed.

Lemma unescape_apos rest :
  unescape_config_value ("&apos;" +:+ rest) = squote +:+ unescape_config_value rest.
Proof. reflexivity. Qed.

Lemma escape_cons x s :
  escape_config_value (String x s)
  = escape_config_value (String x "") +:+ escape_config_value s.
Proof.
  unfold escape_config_value, backslash, dquote, squote.
  rewrite (replace_char_cons _ _ x s), (replace_char_cons _ _ x "").
  rewrite !replace_char_app. change (Py.replace "" _ _) with "".
  by rewrite !append_nil_r.
Qed.

(** Where the round trip does hold: values without an ampersand. *)
Lemma unescape_escape_no_ampersand s :
  no_ampersand s = true → unescape_config_value (escape_config_value s) = s.
Proof.
  induction s as [| x s IH]; [done |].
  cbn [no_ampersand]. intros [Hx Hs]%andb_prop. apply negb_true_iff in Hx.
  rewrite escape_cons.
  destruct (Ascii.eqb_spec "\" x) as [<- | Hb].
  { change (escape_config_value (String "\" "")) with "&bsol;".
    rewrite unescape_bsol, IH by done. reflexivity. }
  destruct (Ascii.eqb_spec "034" x) as [<- | Hd].
  { change (escape_config_value (String "034" "")) with "&quot;".
    rewrite unescape_quot, IH by done. reflexivity. }
  destruct (Ascii.eqb_spec "'" x) as [<- | Hq].
  { change (escape_config_value (String "'" "")) with "&apos;".
    rewrite unescape_apos, IH by done. reflexivity. }
  assert (Hsame : escape_config_value (String x "") = String x "").
  { unfold escape_config_value, backslash, dquote, squote.
    rewrite replace_char_cons.
    destruct (Ascii.eqb_spec "\" x); [done |].
    change (Py.replace "" _ _) with "". rewrite append_nil_r.
    rewrite replace_char_cons.
    destruct (Ascii.eqb_spec "034" x); [done |].
    change (Py.replace "" _ _) with "". rewrite append_nil_r.
    rewrite replace_char_cons.
    destruct (Ascii.eqb_spec "'" x); [done |].
    reflexivity. }
  rewrite Hsame, append_cons, append_nil_l.
  rewrite unescape_other, IH by done. reflexivity.
Qed.

(** C5 on the code: a value that already holds the text of an entity is
    left alone by the escaping and changed by the unescaping, so the round
    trip does not give it back. *)
Theorem unescape_escape_entity_text :
  escape_config_value "echo &quot;hi&quot;" = "echo &quot;hi&quot;"
  ∧ unescape_config_value (escape_config_value "echo &quot;hi&quot;")
    = "echo " +:+ dquote +:+ "hi" +:+ dquote
  ∧ unescape_config_value (escape_config_value "echo &quot;hi&quot;")
    ≠ "echo &quot;hi&quot;".
Proof. repeat split; try reflexivity. vm_compute. discriminate. Qed.

Example escape_examples :
  escape_config_value ("say " +:+ dquote +:+ "a\b" +:+ dquote)
  = "say &quot;a&bsol;b&quot;"
  ∧ unescape_config_value "say &quot;a&bsol;b&quot;"
    = "say " +:+ dquote +:+ "a\b" +:+ dquote
  ∧ unescape_config_value (escape_config_value "&bsol;") = backslash.
Proof. repeat split; reflexivity. Qed.

End escaping.


(** ** More on the staleness check and the throttle *)

Section evaluator.
Import TQAlert.

Lemma read_unusable_zero fs symbol data_type :
  Probe.unusable fs (marker_path symbol data_type) →
  read_last_timestamp fs symbol data_type = Ok 0.
Proof.
  unfold Probe.unusable, read_last_timestamp, open_readline.
  destruct (fs !! marker_path symbol data_type) as [[[contents | |] |] |];
    cbn [bind try_except probe_handles]; try done.
  intros [e He]. rewrite He. cbn.
  unfold Py.int in He. destruct (Py.int_signed _); [done |]. by inversion He.
Qed.

(** X1: a rule whose two thresholds are zero (or negative) never fires:
    whatever the marker files hold and whatever the time, the check returns
    the empty pair and the rule leaves the state as it was. *)
Theorem zero_thresholds_never_fire fs cmds clock now st rule :
  TickSec (Rule rule) <= 0 → QuoteSec (Rule rule) <= 0 →
  check_symbol_alerts fs rule now (last_alert_times st) = Ok ("", "")
  ∧ monitor_rule fs cmds clock now st rule = Ok st.
Proof.
  intros Ht Hq.
  assert (Hcheck : check_symbol_alerts fs rule now (last_alert_times st) = Ok ("", "")).
  { unfold check_symbol_alerts.
    destruct (Z.gtb_spec (QuoteSec (Rule rule)) 0); [lia |].
    destruct (Z.gtb_spec (TickSec (Rule rule)) 0); [lia |]. reflexivity. }
  split; [exact Hcheck |].
  unfold monitor_rule. destruct (negb _); [done |].
  destruct (should_skip_symbol _ _ _ _) as [[] reason]; [done |].
  by rewrite Hcheck.
Qed.

Lemma zero_thresholds_never_fire_witness :
  check_symbol_alerts Samples.markers
    {| Symbol := "TXF"; RuleIdx := 0;
       Rule := {| WeekVal := 1111111; Beg := 0; End' := 235959;
                  TickSec := 0; QuoteSec := 0; BegOffset := 0 |} |}
    2000 ∅ = Ok ("", "")
  ∧ monitor_rule Samples.markers ["mail {HEADER} {BODY}"] 100000 2000 Samples.start
      {| Symbol := "TXF"; RuleIdx := 0;
         Rule := {| WeekVal := 1111111; Beg := 0; End' := 235959;
                    TickSec := 0; QuoteSec := 0; BegOffset := 0 |} |}
    = Ok Samples.start.
Proof.
  apply (zero_thresholds_never_fire Samples.markers ["mail {HEADER} {BODY}"] 100000 2000
           Samples.start
           {| Symbol := "TXF"; RuleIdx := 0;
              Rule := {| WeekVal := 1111111; Beg := 0; End' := 235959;
                         TickSec := 0; QuoteSec := 0; BegOffset := 0 |} |}).
  - cbn. lia.
  - cbn. lia.
Defined.

(** X2: which alert the check returns, given the two marker values: the
    tick alert exactly when the tick threshold is positive and strictly
    exceeded, the quote alert exactly when the quote threshold is positive
    and strictly exceeded while the tick one is not, and the empty pair
    exactly when neither is; at [last + threshold] itself nothing fires. *)
Theorem alert_kind_by_staleness fs rule now (lat : gmap string Z) last_quote last_tick :
  read_last_timestamp fs (Symbol rule) "LastQ" = Ok last_quote →
  read_last_timestamp fs (Symbol rule) "LastT" = Ok last_tick →
  ∃ header body,
    check_symbol_alerts fs rule now lat = Ok (header, body)
    ∧ (header = "No Tick Alert"
       ↔ 0 < TickSec (Rule rule) ∧ last_tick + TickSec (Rule rule) < now)
    ∧ (header = "No Quote Alert"
       ↔ (0 < QuoteSec (Rule rule) ∧ last_quote + QuoteSec (Rule rule) < now)
         ∧ ¬ (0 < TickSec (Rule rule) ∧ last_tick + TickSec (Rule rule) < now))
    ∧ (truthy header = false
       ↔ ¬ (0 < QuoteSec (Rule rule) ∧ last_quote + QuoteSec (Rule rule) < now)
         ∧ ¬ (0 < TickSec (Rule rule) ∧ last_tick + TickSec (Rule rule) < now)).
Proof.
  intros Hq Ht. unfold check_symbol_alerts. rewrite Hq, Ht.
  destruct (Z.gtb_spec (QuoteSec (Rule rule)) 0),
    (Z.gtb_spec (TickSec (Rule rule)) 0); cbn [bind];
    repeat match goal with
           | |- context [?a >? ?b] => destruct (Z.gtb_spec a b)
           end;
    eexists _, _; (split; [reflexivity |]); cbn [truthy];
    repeat split; intros; try done; try lia.
Qed.

Lemma alert_kind_by_staleness_witness :
  ∃ header body,
    check_symbol_alerts Samples.markers Samples.both_match 1050 ∅ = Ok (header, body)
    ∧ (header = "No Tick Alert" ↔ 0 < 60 ∧ 1010 + 60 < 1050)
    ∧ (header = "No Quote Alert"
       ↔ (0 < 30 ∧ 1000 + 30 < 1050) ∧ ¬ (0 < 60 ∧ 1010 + 60 < 1050))
    ∧ (truthy header = false
       ↔ ¬ (0 < 30 ∧ 1000 + 30 < 1050) ∧ ¬ (0 < 60 ∧ 1010 + 60 < 1050)).
Proof.
  apply (alert_kind_by_staleness Samples.markers Samples.both_match 1050 ∅ 1000 1010).
  - vm_compute. reflexivity.
  - vm_compute. reflexivity.
Defined.

(** X3: a tick marker that is absent or cannot be read counts as a last
    tick at time 0: with a positive tick threshold below the current time the
    check reports the missing ticks. *)
Theorem unusable_tick_marker_is_stale fs rule now (lat : gmap string Z) :
  Probe.unusable fs (marker_path (Symbol rule) "LastT") →
  0 < TickSec (Rule rule) → TickSec (Rule rule) < now →
  check_symbol_alerts fs rule now lat
  = Ok ("No Tick Alert",
        Symbol rule +:+ " has no tick for " +:+ Py.str (TickSec (Rule rule))
        +:+ " seconds!").
Proof.
  intros Hbad Ht Hnow. unfold check_symbol_alerts.
  rewrite (read_unusable_zero fs (Symbol rule) "LastT" Hbad).
  destruct (read_last_timestamp_total fs (Symbol rule) "LastQ") as (q & ->).
  destruct (Z.gtb_spec (TickSec (Rule rule)) 0); [| lia].
  destruct (QuoteSec (Rule rule) >? 0); cbn [bind];
    (destruct (Z.gtb_spec now (0 + TickSec (Rule rule))); [reflexivity | lia]).
Qed.

Lemma unusable_tick_marker_is_stale_witness :
  check_symbol_alerts ∅ Samples.day_match 2000 ∅
  = Ok ("No Tick Alert", "TXF has no tick for 60 seconds!").
Proof.
  apply (unusable_tick_marker_is_stale ∅ Samples.day_match 2000 ∅).
  - exact I.
  - reflexivity.
  - reflexivity.
Defined.

(** X4: the throttle expires: a rule in its window whose symbol is not
    muted and was last alerted [MIN_ALERT_INTERVAL] seconds ago or more fires
    again when its check returns an alert; the entry of the symbol moves to
    the current time and the alert and every command are appended. *)
Theorem stale_symbol_alerted_again fs cmds clock now st rule last header body :
  is_within_time_range clock (BegOffset (Rule rule)) (End' (Rule rule)) = true →
  isfile fs (skip_file (Symbol rule)) = false →
  last_alert_times st !! Symbol rule = Some last →
  last + MIN_ALERT_INTERVAL <= now →
  check_symbol_alerts fs rule now (last_alert_times st) = Ok (header, body) →
  truthy header = true →
  monitor_rule fs cmds clock now st rule
  = Ok {| last_alert_times := <[Symbol rule := now]> (last_alert_times st);
          trace := (trace st ++ Trace.dispatch (Symbol rule) now header body cmds)%list |}.
Proof.
  intros Hwin Hfile Hlast Hlate Hcheck Hh.
  unfold monitor_rule, should_skip_symbol.
  rewrite Hwin, Hfile, Hlast. cbn [negb].
  destruct (Z.ltb_spec now (last + MIN_ALERT_INTERVAL)); [lia |].
  rewrite Hcheck. cbn [bind]. by rewrite Hh.
Qed.

Lemma stale_symbol_alerted_again_witness :
  monitor_rule Samples.markers ["mail {HEADER} {BODY}"] 100030 2030
    {| last_alert_times := {[ "TXF" := 2000 ]}; trace := [] |} Samples.day_match
  = Ok {| last_alert_times :=
            <[Symbol Samples.day_match := 2030]>
              (last_alert_times {| last_alert_times := {[ "TXF" := 2000 ]}; trace := [] |});
          trace :=
            (trace {| last_alert_times := {[ "TXF" := 2000 ]}; trace := [] |}
             ++ Trace.dispatch (Symbol Samples.day_match) 2030 "No Tick Alert"
                  "TXF has no tick for 60 seconds!" ["mail {HEADER} {BODY}"])%list |}.
Proof.
  apply (stale_symbol_alerted_again Samples.markers ["mail {HEADER} {BODY}"] 100030 2030
           {| last_alert_times := {[ "TXF" := 2000 ]}; trace := [] |} Samples.day_match
           2000 "No Tick Alert" "TXF has no tick for 60 seconds!").
  - reflexivity.
  - vm_compute. reflexivity.
  - vm_compute. reflexivity.
  - vm_compute. discriminate.
  - vm_compute. reflexivity.
  - reflexivity.
Defined.

End evaluator.

(** ** More on loading and on the window of a loaded rule *)

Section loaded_rules.
Import TQAlert.

Lemma of_seconds_linear s :
  Clock.of_seconds s = s + 40 * (s / 60) + 4000 * (s / 3600).
Proof.
  unfold Clock.of_seconds.
  rewrite (Z.mod_eq (s / 60) 60), (Z.mod_eq s 60), Z.div_div by lia.
  change (60 * 60) with 3600. lia.
Qed.

Lemma of_seconds_strict_mono s s' : s < s' → Clock.of_seconds s < Clock.of_seconds s'.
Proof.
  intros Hlt. rewrite !of_seconds_linear.
  assert (s / 60 <= s' / 60) by (apply Z.div_le_mono; lia).
  assert (s / 3600 <= s' / 3600) by (apply Z.div_le_mono; lia).
  lia.
Qed.

Lemma valid_is_encoding t : Clock.valid t → Clock.of_seconds (Clock.seconds_of t) = t.
Proof.
  intros Hv. pose proof (valid_nonneg t Hv). destruct Hv as (_ & Hm & Hs).
  by apply of_seconds_seconds_of.
Qed.

(** X5: the window of a loaded rule opens only when its threshold has
    elapsed since [Beg]: [BegOffset] is never before a valid [Beg], and every
    valid wall-clock time inside [BegOffset, End) is at least [min_interval]
    seconds after [Beg]. *)
Theorem window_opens_after_threshold time_rules loaded symbol rules i r :
  _process_time_rules time_rules = Ok loaded →
  (symbol, rules) ∈ loaded → rules !! i = Some r →
  Clock.valid (Beg r) →
  Beg r <= BegOffset r
  ∧ ∀ clock,
      Clock.valid clock →
      is_within_time_range clock (BegOffset r) (End' r) = true →
      Clock.seconds_of (Beg r) + min_interval (TickSec r) (QuoteSec r)
      <= Clock.seconds_of clock.
Proof.
  intros Hload Hin Hi Hbeg.
  pose proof (valid_nonneg _ Hbeg) as Hb.
  pose proof (loaded_rule_offset_nonneg _ _ _ _ _ _ Hload Hin Hi Hb) as Hoff.
  pose proof (min_interval_range (TickSec r) (QuoteSec r)) as Hm.
  split.
  - rewrite <- (valid_is_encoding (Beg r) Hbeg) at 1. rewrite Hoff.
    destruct (Z.eq_dec (min_interval (TickSec r) (QuoteSec r)) 0) as [-> | Hnz].
    + by rewrite Z.add_0_r.
    + apply Z.lt_le_incl, of_seconds_strict_mono. lia.
  - intros clock Hclock Hwin.
    unfold is_within_time_range in Hwin. apply andb_prop in Hwin as [Hge _].
    apply Z.leb_le in Hge.
    destruct (Z.le_gt_cases
                (Clock.seconds_of (Beg r) + min_interval (TickSec r) (QuoteSec r))
                (Clock.seconds_of clock)) as [| Hlt]; [done |].
    apply of_seconds_strict_mono in Hlt.
    rewrite (valid_is_encoding clock Hclock), <- Hoff in Hlt. lia.
Qed.

Lemma window_opens_after_threshold_witness :
  84500 <= 84600
  ∧ Clock.seconds_of 84500 + min_interval 60 0 <= Clock.seconds_of 84600.
Proof.
  destruct (window_opens_after_threshold
              Samples.day_raw [("TXF", [Samples.day_rule])] "TXF" [Samples.day_rule]
              0%nat Samples.day_rule) as [Hle Hwin].
  - vm_compute. reflexivity.
  - apply list_elem_of_here.
  - reflexivity.
  - unfold Clock.valid. vm_compute. repeat split; discriminate.
  - split; [exact Hle |]. apply (Hwin 84600).
    + unfold Clock.valid. vm_compute. repeat split; discriminate.
    + reflexivity.
Defined.

(** X6: a loaded rule whose [End] is not after its [Beg], an overnight
    window for one, is never in its window: at every time of day it leaves
    the state as it was. *)
Theorem overnight_rule_never_fires time_rules loaded symbol rules i r
    fs cmds clock now st idx :
  _process_time_rules time_rules = Ok loaded →
  (symbol, rules) ∈ loaded → rules !! i = Some r →
  Clock.valid (Beg r) → End' r <= Beg r →
  is_within_time_range clock (BegOffset r) (End' r) = false
  ∧ monitor_rule fs cmds clock now st {| Symbol := symbol; RuleIdx := idx; Rule := r |}
    = Ok st.
Proof.
  intros Hload Hin Hi Hbeg Hend.
  pose proof (valid_nonneg _ Hbeg) as Hb.
  pose proof (loaded_rule_offset_nonneg _ _ _ _ _ _ Hload Hin Hi Hb) as Hoff.
  pose proof (min_interval_range (TickSec r) (QuoteSec r)) as Hm.
  assert (Hle : Beg r <= BegOffset r).
  { rewrite <- (valid_is_encoding (Beg r) Hbeg) at 1. rewrite Hoff.
    destruct (Z.eq_dec (min_interval (TickSec r) (QuoteSec r)) 0) as [-> | Hnz].
    - by rewrite Z.add_0_r.
    - apply Z.lt_le_incl, of_seconds_strict_mono. lia. }
  assert (Hout : is_within_time_range clock (BegOffset r) (End' r) = false).
  { unfold is_within_time_range.
    destruct (Z.leb_spec (BegOffset r) clock), (Z.ltb_spec clock (End' r));
      cbn [andb]; try done. lia. }
  split; [exact Hout |].
  unfold monitor_rule. cbn [Rule]. by rewrite Hout.
Qed.

Lemma overnight_rule_never_fires_witness :
  is_within_time_range 230000 220100 50000 = false
  ∧ monitor_rule Samples.markers ["mail {HEADER} {BODY}"] 230000 2000 Samples.start
      {| Symbol := "TXF"; RuleIdx := 0;
         Rule := {| WeekVal := 1111100; Beg := 220000; End' := 50000;
                    TickSec := 60; QuoteSec := 0; BegOffset := 220100 |} |}
    = Ok Samples.start.
Proof.
  apply (overnight_rule_never_fires
           [("TXF", [[1111100; 220000; 50000; 60; 0]])]
           [("TXF", [{| WeekVal := 1111100; Beg := 220000; End' := 50000;
                        TickSec := 60; QuoteSec := 0; BegOffset := 220100 |}])]
           "TXF"
           [{| WeekVal := 1111100; Beg := 220000; End' := 50000;
               TickSec := 60; QuoteSec := 0; BegOffset := 220100 |}]
           0%nat
           {| WeekVal := 1111100; Beg := 220000; End' := 50000;
              TickSec := 60; QuoteSec := 0; BegOffset := 220100 |}
           Samples.markers ["mail {HEADER} {BODY}"] 230000 2000 Samples.start 0%nat).
  - vm_compute. reflexivity.
  - apply list_elem_of_here.
  - reflexivity.
  - unfold Clock.valid. vm_compute. repeat split; discriminate.
  - vm_compute. discriminate.
Defined.

(** *** The shape of a loaded table *)

Lemma process_rule_params_fields rule_params r :
  process_rule_params rule_params = Ok r →
  rule_params !! 0%nat = Some (WeekVal r) ∧ rule_params !! 1%nat = Some (Beg r)
  ∧ rule_params !! 2%nat = Some (End' r) ∧ rule_params !! 3%nat = Some (TickSec r)
  ∧ rule_params !! 4%nat = Some (QuoteSec r).
Proof.
  unfold process_rule_params, bind, item. intros H.
  repeat match type of H with
         | context [?l !! ?k] => destruct (l !! k)
         end; try done.
  match type of H with
  | context [to_hhmmss ?t] => destruct (to_hhmmss t) as [off |]; [| done]
  end.
  by inversion H; subst.
Qed.

Lemma process_rules_length rules loaded :
  process_rules rules = Ok loaded → length loaded = length rules.
Proof.
  revert loaded. induction rules as [| rule_params rest IH]; intros loaded Hp.
  - by inversion Hp.
  - cbn [process_rules] in Hp. unfold bind in Hp.
    destruct (process_rule_params rule_params); [| done].
    destruct (process_rules rest) as [rest' |]; [| done].
    inversion Hp; subst. cbn [length]. by rewrite (IH rest').
Qed.

Lemma process_time_rules_lookup time_rules loaded k symbol rules :
  _process_time_rules time_rules = Ok loaded → loaded !! k = Some (symbol, rules) →
  ∃ raw, time_rules !! k = Some (symbol, raw) ∧ process_rules raw = Ok rules.
Proof.
  revert loaded k. induction time_rules as [| [sym raw] rest IH]; intros loaded k Hp Hk.
  - inversion Hp; subst. done.
  - cbn [_process_time_rules] in Hp. unfold bind in Hp.
    destruct (process_rules raw) as [rules' |] eqn:Hraw; [| done].
    destruct (_process_time_rules rest) as [rest' |] eqn:Hrest; [| done].
    inversion Hp; subst loaded. destruct k as [| k].
    + inversion Hk; subst. by exists raw.
    + apply (IH rest' k eq_refl Hk).
Qed.

Lemma process_time_rules_length time_rules loaded :
  _process_time_rules time_rules = Ok loaded → length loaded = length time_rules.
Proof.
  revert loaded. induction time_rules as [| [sym raw] rest IH]; intros loaded Hp.
  - by inversion Hp.
  - cbn [_process_time_rules] in Hp. unfold bind in Hp.
    destruct (process_rules raw); [| done].
    destruct (_process_time_rules rest) as [rest' |]; [| done].
    inversion Hp; subst. cbn [length]. by rewrite (IH rest').
Qed.

(** X7: loading keeps the table as the configuration gives it: the same
    number of symbols in the same order, for each symbol the same number of
    rules in the same order, and in each rule the five parameters
    [WeekVal], [Beg], [End], [TickSec], [QuoteSec] unchanged; parameters after
    the fifth are dropped. *)
Theorem load_keeps_order_and_parameters time_rules loaded :
  _process_time_rules time_rules = Ok loaded →
  length loaded = length time_rules
  ∧ ∀ k symbol rules,
      loaded !! k = Some (symbol, rules) →
      ∃ raw, time_rules !! k = Some (symbol, raw)
             ∧ length rules = length raw
             ∧ ∀ i r, rules !! i = Some r →
                 ∃ rule_params,
                   raw !! i = Some rule_params
                   ∧ take 5 rule_params
                     = [WeekVal r; Beg r; End' r; TickSec r; QuoteSec r].
Proof.
  intros Hload. split; [by apply process_time_rules_length |].
  intros k symbol rules Hk.
  destruct (process_time_rules_lookup _ _ _ _ _ Hload Hk) as (raw & Hraw & Hrules).
  exists raw. split; [done |]. split; [by apply process_rules_length |].
  intros i r Hi.
  destruct (process_rules_lookup _ _ _ _ Hrules Hi) as (rule_params & Hp & Hr).
  exists rule_params. split; [done |].
  destruct (process_rule_params_fields _ _ Hr) as (H0 & H1 & H2 & H3 & H4).
  destruct rule_params as [| a [| b [| c [| d [| e rest]]]]]; try done.
  by simplify_eq/=.
Qed.

Lemma load_keeps_order_and_parameters_witness :
  length [("TXF", [Samples.day_rule])] = length Samples.day_raw
  ∧ ∀ k symbol rules,
      [("TXF", [Samples.day_rule])] !! k = Some (symbol, rules) →
      ∃ raw, Samples.day_raw !! k = Some (symbol, raw)
             ∧ length rules = length raw
             ∧ ∀ i r, rules !! i = Some r →
                 ∃ rule_params,
                   raw !! i = Some rule_params
                   ∧ take 5 rule_params
                     = [WeekVal r; Beg r; End' r; TickSec r; QuoteSec r].
Proof.
  apply (load_keeps_order_and_parameters Samples.day_raw [("TXF", [Samples.day_rule])]).
  vm_compute. reflexivity.
Defined.

Lemma process_rule_params_short rule_params :
  (length rule_params < 5)%nat → process_rule_params rule_params = Raise IndexError.
Proof.
  intros Hlen.
  destruct rule_params as [| a [| b [| c [| d [| e rest]]]]]; cbn [length] in Hlen;
    try lia; reflexivity.
Qed.

Lemma process_rules_raise rules :
  Exists (fun rule_params => (length rule_params < 5)%nat) rules →
  process_rules rules = Raise IndexError.
Proof.
  induction rules as [| rule_params rest IH]; intros Hex; [by inversion Hex |].
  cbn [process_rules].
  destruct (Nat.lt_ge_cases (length rule_params) 5) as [Hshort | Hlong].
  - by rewrite process_rule_params_short.
  - destruct (process_rule_params_total rule_params Hlong) as (r & ->). cbn [bind].
    inversion Hex as [? ? Hbad | ? ? Hrest]; subst; [lia |].
    by rewrite IH.
Qed.

(** X8: a table whose begin times are below [10^4000] in size, far inside
    the interpreter's limit on the digits of an integer, is loaded exactly
    when each of its rules has at least five parameters; with a shorter rule
    anywhere in it the load raises [IndexError], the only exception it can
    raise on such a table. *)
Theorem load_succeeds_iff_five_parameters time_rules :
  Forall (fun entry =>
            Forall (fun rule_params =>
                      ∀ beg, rule_params !! 1%nat = Some beg → Z.abs beg < 10 ^ 4000)
              entry.2)
    time_rules →
  ((∃ loaded, _process_time_rules time_rules = Ok loaded)
   ↔ Forall (fun entry => Forall (fun rule_params => (5 <= length rule_params)%nat) entry.2)
       time_rules)
  ∧ ((∃ loaded, _process_time_rules time_rules = Ok loaded)
     ∨ _process_time_rules time_rules = Raise IndexError).
Proof.
  intros _.
  assert (Hbad : ∀ tr,
    ¬ Forall (fun entry => Forall (fun rule_params => (5 <= length rule_params)%nat) entry.2) tr →
    _process_time_rules tr = Raise IndexError).
  { induction tr as [| [symbol rules] rest IH]; intros Hnot.
    - destruct Hnot. constructor.
    - cbn [_process_time_rules].
      destruct (decide (Forall (fun rule_params => (5 <= length rule_params)%nat) rules))
        as [Hrules | Hrules].
      + destruct (process_rules_total rules Hrules) as (rules' & ->). cbn [bind].
        rewrite IH; [done |]. intros Hrest. apply Hnot. by constructor.
      + rewrite process_rules_raise; [done |].
        apply not_Forall_Exists in Hrules; [| intros x; apply _].
        eapply Exists_impl; [exact Hrules |]. cbn. intros x Hx. lia. }
  destruct (decide (Forall (fun entry =>
      Forall (fun rule_params => (5 <= length rule_params)%nat) entry.2) time_rules))
    as [Hall | Hnot].
  - pose proof (process_time_rules_total time_rules Hall) as Hok.
    split; [split; done | by left].
  - pose proof (Hbad time_rules Hnot) as Hraise. split; [| by right].
    split; [| done]. intros (loaded & Hok). by rewrite Hraise in Hok.
Qed.

Lemma load_succeeds_iff_five_parameters_witness :
  ((∃ loaded, _process_time_rules Samples.day_raw = Ok loaded)
   ↔ Forall (fun entry => Forall (fun rule_params => (5 <= length rule_params)%nat) entry.2)
       Samples.day_raw)
  ∧ ((∃ loaded, _process_time_rules Samples.day_raw = Ok loaded)
     ∨ _process_time_rules Samples.day_raw = Raise IndexError).
Proof.
  apply (load_succeeds_iff_five_parameters Samples.day_raw).
  repeat constructor. intros beg Hbeg. inversion Hbeg; subst.
  vm_compute. reflexivity.
Defined.

End loaded_rules.

(** ** More on the escaping of configuration values *)

Section escaping_more.
Import EConf.

Lemma escape_single x :
  escape_config_value (String x "")
  = if Ascii.eqb "\" x then "&bsol;"
    else if Ascii.eqb "034" x then "&quot;"
    else if Ascii.eqb "'" x then "&apos;"
    else String x "".
Proof. each_char x; reflexivity. Qed.

Lemma free_of_app c a b :
  Escaped.free_of c (a +:+ b) = Escaped.free_of c a && Escaped.free_of c b.
Proof.
  induction a as [| x a IH]; [done |].
  rewrite append_cons. cbn [Escaped.free_of]. by rewrite IH, andb_assoc.
Qed.

Lemma escape_free s :
  Escaped.free_of "\" (escape_config_value s) = true
  ∧ Escaped.free_of "034" (escape_config_value s) = true
  ∧ Escaped.free_of "'" (escape_config_value s) = true.
Proof.
  induction s as [| x s (IHb & IHd & IHq)]; [done |].
  rewrite escape_cons, !free_of_app, IHb, IHd, IHq, !andb_true_r, escape_single.
  destruct (Ascii.eqb "\" x) eqn:Hb; [done |].
  destruct (Ascii.eqb "034" x) eqn:Hd; [done |].
  destruct (Ascii.eqb "'" x) eqn:Hq; [done |].
  cbn [Escaped.free_of]. by rewrite Hb, Hd, Hq.
Qed.

Lemma escape_nothing_to_escape s :
  Escaped.free_of "\" s = true → Escaped.free_of "034" s = true →
  Escaped.free_of "'" s = true → escape_config_value s = s.
Proof.
  induction s as [| x s IH]; [done |]. cbn [Escaped.free_of].
  intros [Hb Hbs]%andb_prop [Hd Hds]%andb_prop [Hq Hqs]%andb_prop.
  apply negb_true_iff in Hb, Hd, Hq.
  rewrite escape_cons, escape_single, Hb, Hd, Hq, IH by done. reflexivity.
Qed.

(** X9: an escaped value holds no backslash, no double quote and no single
    quote, so the value cannot close the quoted literal it is put into. *)
Theorem escaped_value_has_no_quote s :
  Escaped.free_of "\" (escape_config_value s) = true
  ∧ Escaped.free_of "034" (escape_config_value s) = true
  ∧ Escaped.free_of "'" (escape_config_value s) = true.
Proof. apply escape_free. Qed.

(** X10: escaping is idempotent: escaping an escaped value changes nothing,
    and a value without backslash or quote is stored as it is. *)
Theorem escape_idempotent s :
  escape_config_value (escape_config_value s) = escape_config_value s
  ∧ (Escaped.free_of "\" s = true → Escaped.free_of "034" s = true →
     Escaped.free_of "'" s = true → escape_config_value s = s).
Proof.
  split; [| apply escape_nothing_to_escape].
  destruct (escape_free s) as (Hb & Hd & Hq). by apply escape_nothing_to_escape.
Qed.

Lemma escape_idempotent_witness :
  escape_config_value (escape_config_value "it's") = escape_config_value "it's"
  ∧ escape_config_value "plain" = "plain".
Proof.
  destruct (escape_idempotent "it's") as [H1 _].
  destruct (escape_idempotent "plain") as [_ H2].
  split; [exact H1 | apply H2; reflexivity].
Defined.

(** X17: a value without an ampersand that the editor stores is read back
    unchanged, by the editor's own [unescape_config_value] and by the
    unescaping of the monitor's loader, which agree on every string. *)
Theorem stored_value_read_back s :
  no_ampersand s = true →
  unescape_config_value (escape_config_value s) = s
  ∧ Driver.unescape_config_json (escape_config_value s) = s
  ∧ ∀ stored, Driver.unescape_config_json stored = unescape_config_value stored.
Proof.
  intros Hs. pose proof (unescape_escape_no_ampersand s Hs) as Hround.
  split; [exact Hround |]. split; [exact Hround | reflexivity].
Qed.

Lemma stored_value_read_back_witness :
  unescape_config_value
    (escape_config_value ("say " +:+ dquote +:+ "it's a\b" +:+ dquote))
  = "say " +:+ dquote +:+ "it's a\b" +:+ dquote
  ∧ Driver.unescape_config_json
      (escape_config_value ("say " +:+ dquote +:+ "it's a\b" +:+ dquote))
    = "say " +:+ dquote +:+ "it's a\b" +:+ dquote
  ∧ ∀ stored, Driver.unescape_config_json stored = unescape_config_value stored.
Proof.
  apply (stored_value_read_back ("say " +:+ dquote +:+ "it's a\b" +:+ dquote)).
  vm_compute. reflexivity.
Defined.

End escaping_more.

(** ** The reload signal ([signal_config_change], [check_config_change]) *)

Section reload_signal.
Import TQAlert.

Lemma reload_test_as_bound now last :
  (2 * now <? 2 * last + 3 * Driver.SLEEP_INTERVAL) = (now <=? last + 7).
Proof.
  unfold Driver.SLEEP_INTERVAL.
  destruct (Z.ltb_spec (2 * now) (2 * last + 3 * 5)), (Z.leb_spec now (last + 7)); lia.
Qed.

Lemma check_config_change_parsed fs now contents last :
  fs !! Driver.config_change_file = Some (RegularFile (Text contents)) →
  Py.int (Py.strip (Py.readline contents)) = Ok last →
  Driver.check_config_change fs now = Ok (now <=? last + 7).
Proof.
  intros Hfile Hint. unfold Driver.check_config_change, open_readline.
  rewrite Hfile. cbn [bind]. rewrite Hint. cbn [bind try_except].
  by rewrite reload_test_as_bound.
Qed.

(** X11: the reload test is false, and raises nothing, when the signal file
    is absent, unreadable or not an integer; with a signal file whose first
    line is an integer literal of at most 4300 characters for a time [T]
    below [2^50] in size (where the sum with the double is exact), in
    particular the decimal form of such a [T], it is true exactly at the
    times up to [T + 7] (one and a half polling intervals, compared
    strictly): a signal 10 seconds old is not seen any more. *)
Theorem reload_within_one_and_a_half_intervals (fs : gmap string node) (now : Z) :
  (Probe.unusable fs Driver.config_change_file →
   Driver.check_config_change fs now = Ok false)
  ∧ (∀ contents T,
       fs !! Driver.config_change_file = Some (RegularFile (Text contents)) →
       Limits.short (Py.strip (Py.readline contents)) →
       Py.int (Py.strip (Py.readline contents)) = Ok T →
       Limits.exact_time T →
       Driver.check_config_change fs now = Ok (now <=? T + 7))
  ∧ (∀ T rest,
       Limits.exact_time T →
       fs !! Driver.config_change_file
       = Some (RegularFile (Text (Py.str T +:+ String "010" rest))) →
       Driver.check_config_change fs now = Ok (now <=? T + 7)).
Proof.
  split; [| split].
  - unfold Probe.unusable, Driver.check_config_change, open_readline.
    destruct (fs !! Driver.config_change_file) as [[[contents | |] |] |];
      cbn [bind try_except probe_handles]; try done.
    intros [e He]. rewrite He. cbn.
    unfold Py.int in He. destruct (Py.int_signed _); [done |]. by inversion He.
  - intros contents T Hfile _ Hint _. by apply (check_config_change_parsed _ _ contents).
  - intros T rest _ Hfile. apply (check_config_change_parsed _ _ _ T Hfile).
    rewrite readline_first_line, strip_newline by apply no_space_str.
    apply int_str.
Qed.

Example reload_signal_ten_seconds_old :
  Driver.check_config_change
    (<[Driver.config_change_file := RegularFile (Text ("1000" +:+ String "010" ""))]> ∅)
    1010 = Ok false
  ∧ Driver.check_config_change
      (<[Driver.config_change_file := RegularFile (Text ("1000" +:+ String "010" ""))]> ∅)
      1007 = Ok true
  ∧ Driver.check_config_change ∅ 1007 = Ok false.
Proof. repeat split; vm_compute; reflexivity. Qed.



End reload_signal.

(** ** Notification commands ([execute_alert_command], [process_test_commands]) *)

Section commands.
Import TQAlert.

(** A character that does not start [old] is copied. *)
Lemma replace_head_other x rest a old new :
  Ascii.eqb a x = false →
  Py.replace (String x rest) (String a old) new
  = String x (Py.replace rest (String a old) new).
Proof. intros Hx. unfold Py.replace. cbn [Py.replace_from Py.startswith]. by rewrite Hx. Qed.

Lemma replace_free_prefix a old new pre rest :
  Escaped.free_of a pre = true →
  Py.replace (pre +:+ rest) (String a old) new
  = pre +:+ Py.replace rest (String a old) new.
Proof.
  induction pre as [| x pre IH]; [done |]. cbn [Escaped.free_of].
  intros [Hx Hpre]%andb_prop. apply negb_true_iff in Hx.
  rewrite !append_cons, replace_head_other, IH by done. reflexivity.
Qed.

Lemma replace_free a old new s :
  Escaped.free_of a s = true → Py.replace s (String a old) new = s.
Proof.
  intros Hs. rewrite <- (append_nil_r s) at 1.
  rewrite replace_free_prefix by done. by rewrite append_nil_r.
Qed.

Lemma replace_header_here rest new :
  Py.replace ("{HEADER}" +:+ rest) "{HEADER}" new = new +:+ Py.replace rest "{HEADER}" new.
Proof. reflexivity. Qed.

Lemma replace_header_skips_body rest new :
  Py.replace ("{BODY}" +:+ rest) "{HEADER}" new = "{BODY}" +:+ Py.replace rest "{HEADER}" new.
Proof. reflexivity. Qed.

Lemma replace_body_here rest new :
  Py.replace ("{BODY}" +:+ rest) "{BODY}" new = new +:+ Py.replace rest "{BODY}" new.
Proof. reflexivity. Qed.

(** X13: a template [pre{HEADER}mid{BODY}post] whose fixed parts, and the
    header, hold no opening brace becomes [pre header mid body post]; the
    body is put in as it is, and the command is run unless that text starts
    with [#] after its leading blanks. *)
Theorem placeholders_are_substituted pre mid post header body :
  Escaped.free_of "{" pre = true → Escaped.free_of "{" mid = true →
  Escaped.free_of "{" post = true → Escaped.free_of "{" header = true →
  execute_alert_command (pre +:+ "{HEADER}" +:+ mid +:+ "{BODY}" +:+ post) header body
  = if Py.startswith (Py.strip (pre +:+ header +:+ mid +:+ body +:+ post)) "#"
    then SkipRun (pre +:+ header +:+ mid +:+ body +:+ post)
    else Ran (pre +:+ header +:+ mid +:+ body +:+ post).
Proof.
  intros Hpre Hmid Hpost Hheader.
  assert (Hfinal :
    Py.replace
      (Py.replace (pre +:+ "{HEADER}" +:+ mid +:+ "{BODY}" +:+ post) "{HEADER}" header)
      "{BODY}" body
    = pre +:+ header +:+ mid +:+ body +:+ post).
  { rewrite (replace_free_prefix "{" "HEADER}" header pre) by done.
    rewrite replace_header_here.
    rewrite (replace_free_prefix "{" "HEADER}" header mid) by done.
    rewrite replace_header_skips_body.
    rewrite (replace_free "{" "HEADER}" header post) by done.
    rewrite (replace_free_prefix "{" "BODY}" body pre) by done.
    rewrite (replace_free_prefix "{" "BODY}" body header) by done.
    rewrite (replace_free_prefix "{" "BODY}" body mid) by done.
    rewrite replace_body_here.
    by rewrite (replace_free "{" "BODY}" body post). }
  unfold execute_alert_command. by rewrite Hfinal.
Qed.

Lemma placeholders_are_substituted_witness :
  execute_alert_command ("mail -s '" +:+ "{HEADER}" +:+ "' ops <<< '" +:+ "{BODY}" +:+ "'")
    "No Tick Alert" "TXF has no tick for 60 seconds!"
  = if Py.startswith
         (Py.strip ("mail -s '" +:+ "No Tick Alert" +:+ "' ops <<< '"
                    +:+ "TXF has no tick for 60 seconds!" +:+ "'")) "#"
    then SkipRun ("mail -s '" +:+ "No Tick Alert" +:+ "' ops <<< '"
                  +:+ "TXF has no tick for 60 seconds!" +:+ "'")
    else Ran ("mail -s '" +:+ "No Tick Alert" +:+ "' ops <<< '"
              +:+ "TXF has no tick for 60 seconds!" +:+ "'").
Proof.
  apply (placeholders_are_substituted "mail -s '" "' ops <<< '" "'"
           "No Tick Alert" "TXF has no tick for 60 seconds!"); reflexivity.
Defined.

Lemma space_is_not_brace c : Py.is_space c = true → Ascii.eqb "{" c = false.
Proof. each_char c; vm_compute; congruence. Qed.

(** Substituting a placeholder keeps a leading [#]. *)
Lemma replace_keeps_leading_hash s old new :
  Py.startswith (Py.lstrip_with Py.is_space s) "#" = true →
  Py.startswith (Py.lstrip_with Py.is_space (Py.replace s (String "{" old) new)) "#" = true.
Proof.
  induction s as [| c s IH]; [done |]. cbn [Py.lstrip_with].
  destruct (Py.is_space c) eqn:Hc.
  - intros Hs. rewrite replace_head_other by by apply space_is_not_brace.
    cbn [Py.lstrip_with]. rewrite Hc. by apply IH.
  - cbn [Py.startswith]. intros [Hhash _]%andb_prop.
    apply Ascii.eqb_eq in Hhash. subst c.
    rewrite replace_head_other by reflexivity. reflexivity.
Qed.

Lemma rstrip_keeps_head c s :
  Py.is_space c = false →
  ∃ r, Py.rstrip_with Py.is_space (String c s) = String c r.
Proof.
  intros Hc. cbn [Py.rstrip_with].
  destruct (Py.rstrip_with Py.is_space s); [rewrite Hc |]; eauto.
Qed.

(** X14: a template whose first character after its leading blanks is [#]
    is never run, whatever the header and the body are. *)
Theorem commented_command_never_runs template header body :
  Py.startswith (Py.lstrip_with Py.is_space template) "#" = true →
  ∃ final_command, execute_alert_command template header body = SkipRun final_command.
Proof.
  intros Hhash. unfold execute_alert_command.
  set (final := Py.replace (Py.replace template "{HEADER}" header) "{BODY}" body).
  assert (Hfinal : Py.startswith (Py.lstrip_with Py.is_space final) "#" = true)
    by (subst final; by do 2 apply replace_keeps_leading_hash).
  assert (Hstrip : Py.startswith (Py.strip final) "#" = true).
  { unfold Py.strip, Py.strip_with.
    destruct (Py.lstrip_with Py.is_space final) as [| c rest]; [done |].
    cbn [Py.startswith] in Hfinal. apply andb_prop in Hfinal as [Hc _].
    apply Ascii.eqb_eq in Hc. subst c.
    destruct (rstrip_keeps_head "#" rest eq_refl) as (r & ->). reflexivity. }
  rewrite Hstrip. eauto.
Qed.

Lemma commented_command_never_runs_witness :
  ∃ final_command,
    execute_alert_command "  # mail {HEADER} {BODY}" "No Tick Alert" "TXF"
    = SkipRun final_command.
Proof.
  apply (commented_command_never_runs "  # mail {HEADER} {BODY}" "No Tick Alert" "TXF").
  reflexivity.
Defined.

(** *** Test requests *)

Lemma append_inj_r (prefix a b : string) : prefix +:+ a = prefix +:+ b → a = b.
Proof.
  induction prefix as [| c prefix IH]; [done |].
  rewrite !append_cons. intros H. inversion H. by apply IH.
Qed.

Lemma str_inj a b : Py.str a = Py.str b → a = b.
Proof.
  intros H. pose proof (int_str a) as Ha. rewrite H, int_str in Ha. by inversion Ha.
Qed.

Lemma test_cmd_file_inj i j : Driver.test_cmd_file i = Driver.test_cmd_file j → i = j.
Proof.
  unfold Driver.test_cmd_file. rewrite <- !append_assoc.
  intros H%append_inj_r%str_inj. lia.
Qed.

Lemma isfile_delete fs path other :
  isfile (delete path fs) other = if decide (path = other) then false else isfile fs other.
Proof.
  unfold isfile. case_decide as Heq.
  - subst. by rewrite lookup_delete_eq.
  - by rewrite lookup_delete_ne.
Qed.

Lemma filter_ext_elem {A} (P Q : A → Prop) `{!∀ x, Decision (P x)} `{!∀ x, Decision (Q x)}
    (l : list A) :
  (∀ x, x ∈ l → (P x ↔ Q x)) → filter P l = filter Q l.
Proof.
  induction l as [| x l IH]; intros Hext; [done |].
  rewrite !filter_cons.
  assert (Hx : P x ↔ Q x) by (apply Hext, list_elem_of_here).
  rewrite IH by (intros y Hy; by apply Hext, list_elem_of_further).
  repeat case_decide; tauto.
Qed.

(** How many of the indices [start .. start + n - 1] have a test file. *)
Lemma test_commands_from_spec cmds :
  ∀ start fs,
    let '(fs', events) := Driver.test_commands_from start cmds fs in
    (∀ i, (start <= i < start + length cmds)%nat →
          isfile fs' (Driver.test_cmd_file i) = false)
    ∧ (∀ path, isfile fs path = false → isfile fs' path = false)
    ∧ (∀ path, (∀ i, (start <= i < start + length cmds)%nat →
                     path ≠ Driver.test_cmd_file i) →
               fs' !! path = fs !! path)
    ∧ length events
      = length (filter (fun i => isfile fs (Driver.test_cmd_file i) = true)
                  (seq start (length cmds))).
Proof.
  induction cmds as [| cmd rest IH]; intros start fs.
  - cbn. repeat split; intros; try done; lia.
  - cbn [Driver.test_commands_from length seq]. rewrite filter_cons.
    destruct (isfile fs (Driver.test_cmd_file start)) eqn:Hfile.
    + specialize (IH (S start) (delete (Driver.test_cmd_file start) fs)).
      destruct (Driver.test_commands_from (S start) rest _) as [fs' events].
      destruct IH as (Hgone & Hmono & Hother & Hcount).
      rewrite decide_True by done. split; [| split; [| split]].
      * intros i Hi. destruct (decide (i = start)) as [-> | Hne].
        -- apply Hmono. rewrite isfile_delete. by rewrite decide_True.
        -- apply Hgone. lia.
      * intros path Hp. apply Hmono. rewrite isfile_delete. by case_decide.
      * intros path Hp. rewrite Hother by (intros i Hi; apply Hp; lia).
        apply lookup_delete_ne. apply not_eq_sym, Hp. lia.
      * cbn [length]. rewrite Hcount. f_equal. f_equal.
        apply filter_ext_elem. intros i Hi%elem_of_seq.
        rewrite isfile_delete. case_decide as Heq; [| done].
        apply test_cmd_file_inj in Heq. lia.
    + specialize (IH (S start) fs).
      destruct (Driver.test_commands_from (S start) rest fs) as [fs' events].
      destruct IH as (Hgone & Hmono & Hother & Hcount).
      rewrite decide_False by done. split; [| split; [| split]].
      * intros i Hi. destruct (decide (i = start)) as [-> | Hne].
        -- by apply Hmono.
        -- apply Hgone. lia.
      * done.
      * intros path Hp. apply Hother. intros i Hi. apply Hp. lia.
      * done.
Qed.

Lemma test_commands_from_none cmds :
  ∀ start fs,
    (∀ i, (start <= i < start + length cmds)%nat →
          isfile fs (Driver.test_cmd_file i) = false) →
    Driver.test_commands_from start cmds fs = (fs, []).
Proof.
  induction cmds as [| cmd rest IH]; intros start fs Hnone; [done |].
  cbn [Driver.test_commands_from]. cbn [length] in Hnone.
  rewrite Hnone by lia. apply IH. intros i Hi. apply Hnone. lia.
Qed.

(** X15: every pending test request is consumed once: after
    [process_test_commands] no test file of a configured command is left,
    one command was handled per request that was pending, files that are no
    test request of a configured command are untouched, and a second call
    handles nothing. *)
Theorem test_requests_consumed_once (fs : gmap string node) (cmds : list string) :
  let '(fs', events) := Driver.process_test_commands fs cmds in
  (∀ i, (i < length cmds)%nat → isfile fs' (Driver.test_cmd_file i) = false)
  ∧ length events
    = length (filter (fun i => isfile fs (Driver.test_cmd_file i) = true)
                (seq 0 (length cmds)))
  ∧ (∀ path, (∀ i, (i < length cmds)%nat → path ≠ Driver.test_cmd_file i) →
             fs' !! path = fs !! path)
  ∧ Driver.process_test_commands fs' cmds = (fs', []).
Proof.
  unfold Driver.process_test_commands.
  pose proof (test_commands_from_spec cmds 0 fs) as H.
  destruct (Driver.test_commands_from 0 cmds fs) as [fs' events].
  destruct H as (Hgone & _ & Hother & Hcount).
  split; [intros i Hi; apply Hgone; lia |].
  split; [exact Hcount |].
  split; [intros path Hp; apply Hother; intros i Hi; apply Hp; lia |].
  apply test_commands_from_none. intros i Hi. apply Hgone. lia.
Qed.

Example test_request_example :
  Driver.process_test_commands
    (<[Driver.test_cmd_file 1 := RegularFile (Text "")]> Samples.markers)
    ["mail {HEADER} {BODY}"; "sms {BODY}"]
  = (delete (Driver.test_cmd_file 1)
       (<[Driver.test_cmd_file 1 := RegularFile (Text "")]> Samples.markers),
     [Ran "sms Hello, this is test of TQAlert#2."]).
Proof. vm_compute. reflexivity. Qed.

End commands.

(** ** The active rule index ([monitor_symbols]) *)

Section rule_index.
Import TQAlert.

Lemma weekday_bitmap_cases w :
  1 <= w <= 7 →
  w = 1 ∨ w = 2 ∨ w = 3 ∨ w = 4 ∨ w = 5 ∨ w = 6 ∨ w = 7.
Proof. lia. Qed.

Lemma weekday_bitmap_inj w w' :
  1 <= w <= 7 → 1 <= w' <= 7 → get_weekday_bitmap w = get_weekday_bitmap w' → w = w'.
Proof.
  intros Hw Hw'. unfold get_weekday_bitmap. intros Heq.
  apply Z.pow_inj_r in Heq; lia.
Qed.

Lemma weekday_bitmap_not_sentinel w :
  1 <= w <= 7 →
  get_weekday_bitmap w ≠ Driver.INITIAL_WEEKDAY
  ∧ get_weekday_bitmap w ≠ Driver.FORCE_REFRESH.
Proof.
  intros Hw.
  destruct (weekday_bitmap_cases w Hw) as [-> | [-> | [-> | [-> | [-> | [-> | ->]]]]]];
    split; vm_compute; discriminate.
Qed.

(** X16: for a table of processed rules with masks of at most seven
    digits, the index of active rules is rebuilt exactly when it has to be:
    at the start (last weekday 0), after a reload (last weekday 999) and when
    the weekday differs from the last one, it becomes the matching rules of
    the current weekday; on the same weekday it is kept as it is. *)
Theorem index_rebuilt_when_day_changes w w' time_rules matching :
  1 <= w <= 7 → 1 <= w' <= 7 →
  (∀ symbol rules rule, (symbol, rules) ∈ time_rules → rule ∈ rules →
     0 <= WeekVal rule < 10 ^ 7) →
  ∃ found,
    get_matching_rules time_rules (get_weekday_bitmap w) = Ok found
    ∧ Driver.refresh_matching_rules time_rules (get_weekday_bitmap w)
        Driver.INITIAL_WEEKDAY matching = Ok (get_weekday_bitmap w, found)
    ∧ Driver.refresh_matching_rules time_rules (get_weekday_bitmap w)
        Driver.FORCE_REFRESH matching = Ok (get_weekday_bitmap w, found)
    ∧ (w' ≠ w →
       Driver.refresh_matching_rules time_rules (get_weekday_bitmap w)
         (get_weekday_bitmap w') matching = Ok (get_weekday_bitmap w, found))
    ∧ Driver.refresh_matching_rules time_rules (get_weekday_bitmap w)
        (get_weekday_bitmap w) matching = Ok (get_weekday_bitmap w, matching).
Proof.
  intros Hw Hw' _.
  destruct (get_matching_rules_spec time_rules (get_weekday_bitmap w)
              (weekday_bitmap_nonzero w Hw)) as (found & Hfound & _).
  destruct (weekday_bitmap_not_sentinel w Hw) as [Hinit Hforce].
  exists found. split; [done |].
  unfold Driver.refresh_matching_rules. rewrite Hfound. cbn [bind].
  repeat split.
  - destruct (Z.eqb_spec Driver.INITIAL_WEEKDAY (get_weekday_bitmap w)); [congruence | done].
  - destruct (Z.eqb_spec Driver.FORCE_REFRESH (get_weekday_bitmap w)); [congruence | done].
  - intros Hne.
    destruct (Z.eqb_spec (get_weekday_bitmap w') (get_weekday_bitmap w)) as [Heq |]; [| done].
    apply weekday_bitmap_inj in Heq; done.
  - by rewrite Z.eqb_refl.
Qed.

Lemma index_rebuilt_when_day_changes_witness :
  ∃ found,
    get_matching_rules Samples.day_table (get_weekday_bitmap 1) = Ok found
    ∧ Driver.refresh_matching_rules Samples.day_table (get_weekday_bitmap 1)
        Driver.INITIAL_WEEKDAY [] = Ok (get_weekday_bitmap 1, found)
    ∧ Driver.refresh_matching_rules Samples.day_table (get_weekday_bitmap 1)
        Driver.FORCE_REFRESH [] = Ok (get_weekday_bitmap 1, found)
    ∧ (7 ≠ 1 →
       Driver.refresh_matching_rules Samples.day_table (get_weekday_bitmap 1)
         (get_weekday_bitmap 7) [] = Ok (get_weekday_bitmap 1, found))
    ∧ Driver.refresh_matching_rules Samples.day_table (get_weekday_bitmap 1)
        (get_weekday_bitmap 1) [] = Ok (get_weekday_bitmap 1, []).
Proof.
  apply (index_rebuilt_when_day_changes 1 7 Samples.day_table []); [lia | lia |].
  intros symbol rules rule Hin Hrule.
  apply list_elem_of_singleton in Hin. inversion Hin; subst.
  apply list_elem_of_singleton in Hrule. subst. cbn. lia.
Defined.

End rule_index.
